(** * ERC721Bridge: a shallow embedding of the NFT bridging client

    Source: packages/bridge-ui-v2/src/libs/bridge/ERC721Bridge.ts

    The class orchestrates calls into external collaborators (the wagmi/viem
    contract-call layer, the canonical-token resolver, the signal-proof
    prover, the pause-status checker and the base class [Bridge]).  Each
    collaborator is an oracle of the [World]; every call is recorded in a
    chronological trace, so that "no write was submitted" and "the call was
    issued with these options" are statements about the trace.

    Asynchronous methods are computations in [Async], a state and exception
    monad: [await] is bind, a rejected promise is [Thrown], [try]/[catch] is
    [try_catch].  A promise that is started and neither awaited nor returned
    is run by [floating]: its rejection goes to the runtime's list of
    unhandled rejections and never to the caller.

    The debug logger ([log]) has no observable effect and is left out;
    [console.error] is kept as an event. *)

From Stdlib Require Import ZArith String List Bool Lia DecimalString.
From Stdlib Require Import Ascii DecimalPos DecimalZ.
Import ListNotations.

Local Open Scope string_scope.
Local Open Scope Z_scope.

(** ** JavaScript values used by the class *)

Module Js.

(** [haystack.includes(needle)] *)
Fixpoint includes (haystack needle : string) : bool :=
  String.prefix needle haystack ||
  match haystack with
  | EmptyString => false
  | String _ rest => includes rest needle
  end.

(** Truthiness of a string: every string but the empty one. *)
Definition truthy (s : string) : bool := negb (s =? "")%string.

(** [`${n}`] for a bigint. *)
Definition of_bigint (n : Z) : string := NilZero.string_of_int (Z.to_int n).

(** [`${x}`] for a bigint that may be [undefined]. *)
Definition of_optional_bigint (x : option Z) : string :=
  match x with
  | Some n => of_bigint n
  | None => "undefined"
  end.

End Js.

Definition Address := string.
Definition Hash := string.

(** ** Errors *)

(** The error classes the file constructs: [Error] itself and the classes
    imported from [$libs/error]. *)
Inductive ErrorName :=
| Error
| ApproveError
| BridgePausedError
| NoApprovalRequiredError
| NoCanonicalInfoFoundError
| NotApprovedError
| ProcessMessageError
| SendERC721Error.

Definition ErrorName_to_string (n : ErrorName) : string :=
  match n with
  | Error => "Error"
  | ApproveError => "ApproveError"
  | BridgePausedError => "BridgePausedError"
  | NoApprovalRequiredError => "NoApprovalRequiredError"
  | NoCanonicalInfoFoundError => "NoCanonicalInfoFoundError"
  | NotApprovedError => "NotApprovedError"
  | ProcessMessageError => "ProcessMessageError"
  | SendERC721Error => "SendERC721Error"
  end.

(** A thrown value.  [Foreign] is an error raised by an external
    collaborator; the class observes it only through [`${err}`], which is
    the text it carries.  [Raised] is [new Name(message, { cause })].
    [UserRejectedRequestError] is viem's class, built from the caught
    error. *)
#[warnings="-register-all"]
Inductive JsError :=
| Foreign (text : string)
| Raised (name : ErrorName) (message : string) (cause : option JsError)
| UserRejectedRequestError (cause : JsError).

(** [`${err}`]: [Error.prototype.toString] for the classes of this
    repository, the carried text for a foreign error. *)
Definition toString (err : JsError) : string :=
  match err with
  | Foreign text => text
  | Raised name "" _ => ErrorName_to_string name
  | Raised name message _ => ErrorName_to_string name ++ ": " ++ message
  | UserRejectedRequestError _ => "UserRejectedRequestError"
  end.

(** ** Data model

    The argument and descriptor types are declared in [./types] and in the
    wallet library; each record holds the fields the class reads or writes,
    under the names the class uses.  A value that may be [undefined] is an
    [option]; a bigint is a [Z]. *)

Module Account.
Record t := { address : Address }.
End Account.

Module Chain.
Record t := { id : Z }.
End Chain.

Module WalletClient.
Record t := { account : option Account.t; chain : option Chain.t }.
End WalletClient.

(** Modelled from the spec: the enum is declared in [./types], which is not
    among the sources.  The spec names [NEW] and [RETRIABLE] and leaves the
    other lifecycle states open; they are [OTHER] with their numeric code. *)
Inductive MessageStatus :=
| NEW
| RETRIABLE
| OTHER (code : Z).

(** [a === b] on the enum. *)
Definition MessageStatus_eqb (a b : MessageStatus) : bool :=
  match a, b with
  | NEW, NEW | RETRIABLE, RETRIABLE => true
  | OTHER x, OTHER y => x =? y
  | _, _ => false
  end.

Module Message.
Record t := {
  srcChainId : Z;
  destChainId : Z;
  gasLimit : Z;
  data : string
}.
End Message.

Module RequireApprovalArgs.
Record t := {
  tokenAddress : Address;
  spenderAddress : Address;
  tokenId : option Z;
  chainId : Z
}.
End RequireApprovalArgs.

Module ERC721BridgeArgs.
Record t := {
  to : Address;
  wallet : option WalletClient.t;
  srcChainId : Z;
  destChainId : Z;
  token : Address;
  fee : Z;
  tokenVaultAddress : Address;
  isTokenAlreadyDeployed : bool;
  memo : option string;
  tokenIds : list Z;
  amounts : list Z
}.
End ERC721BridgeArgs.

Module NFTBridgeTransferOp.
Record t := {
  destChainId : Z;
  to : Address;
  token : Address;
  gasLimit : Z;
  fee : Z;
  refundTo : Address;
  memo : string;
  tokenIds : list Z;
  amounts : list Z
}.
End NFTBridgeTransferOp.

Module NFTApproveArgs.
Record t := {
  tokenAddress : Address;
  spenderAddress : Address;
  wallet : option WalletClient.t;
  tokenIds : list Z
}.
End NFTApproveArgs.

Module ClaimArgs.
Record t := {
  msgHash : Hash;
  message : Message.t;
  wallet : option WalletClient.t
}.
End ClaimArgs.

Module CanonicalInfo.
Record t := { address : Address; chainId : Z }.
End CanonicalInfo.

(** The object [getContract] returns; only its address is read. *)
Module Contract.
Record t := { address : Address }.
End Contract.

(** [bridgeService] of [$config]: the three gas constants the class reads. *)
Module BridgeService.
Record t := {
  noERC721TokenDeployedGasLimit : Z;
  noOwnerGasLimit : Z;
  erc721GasLimitThreshold : Z
}.
End BridgeService.

(** ** Contract calls *)

(** [functionName] together with [args]. *)
Inductive ContractFunction :=
| SendToken (op : NFTBridgeTransferOp.t)
| ProcessMessage (message : Message.t) (proof : string)
| Approve (spender : Address) (tokenId : option Z).

(** The options object of [simulateContract] and [writeContract]; an
    option the call site leaves out is [None]. *)
Module ContractCall.
Record t := {
  address : Address;
  call : ContractFunction;
  chainId : option Z;
  value : option Z;
  gas : option Z
}.
End ContractCall.

(** ** The asynchronous runtime *)

Inductive Event :=
| EvIsBridgePaused
| EvGetWalletClient
| EvGetApproved (token : Address) (tokenId : option Z) (chainId : Z)
| EvGetCanonicalInfo (token : Address) (srcChainId destChainId : Z)
| EvEstimateGas (vault : Address) (op : NFTBridgeTransferOp.t) (value : Z)
| EvSimulate (c : ContractCall.t)
| EvWrite (c : ContractCall.t)
| EvBeforeClaiming (args : ClaimArgs.t)
| EvEncodedSignalProof (msgHash : Hash) (srcChainId destChainId : Z)
| EvConsoleError (err : JsError).

Definition is_write (ev : Event) : bool :=
  match ev with
  | EvWrite _ => true
  | _ => false
  end.

Definition is_contract_call (ev : Event) : bool :=
  match ev with
  | EvSimulate _ | EvWrite _ => true
  | _ => false
  end.

Record Runtime := {
  trace : list Event;
  unhandled : list JsError
}.

Definition fresh : Runtime := {| trace := []; unhandled := [] |}.

Inductive Completion (A : Type) :=
| Returned (a : A)
| Thrown (err : JsError).
Arguments Returned {A} a.
Arguments Thrown {A} err.

(** What a collaborator answers: a value, or a rejection with its text. *)
Inductive Reply (A : Type) :=
| Resolved (a : A)
| Rejected (text : string).
Arguments Resolved {A} a.
Arguments Rejected {A} text.

Definition Async (A : Type) : Type := Runtime -> Completion A * Runtime.

Definition ret {A} (a : A) : Async A := fun r => (Returned a, r).

Definition throw {A} (err : JsError) : Async A := fun r => (Thrown err, r).

Definition bind {A B} (m : Async A) (k : A -> Async B) : Async B :=
  fun r =>
    match m r with
    | (Returned a, r') => k a r'
    | (Thrown err, r') => (Thrown err, r')
    end.

Definition try_catch {A} (body : Async A) (handler : JsError -> Async A) : Async A :=
  fun r =>
    match body r with
    | (Returned a, r') => (Returned a, r')
    | (Thrown err, r') => handler err r'
    end.

Definition emit (ev : Event) : Async unit :=
  fun r => (Returned tt, {| trace := trace r ++ [ev]; unhandled := unhandled r |}).

(** Awaiting a collaborator: the call is recorded, then its answer is the
    completion. *)
Definition perform {A} (ev : Event) (answer : Reply A) : Async A :=
  fun r =>
    let r' := {| trace := trace r ++ [ev]; unhandled := unhandled r |} in
    match answer with
    | Resolved a => (Returned a, r')
    | Rejected text => (Thrown (Foreign text), r')
    end.

(** A promise that is started and dropped: its effects happen, its
    rejection is unhandled, the caller goes on. *)
Definition floating {A} (m : Async A) : Async unit :=
  fun r =>
    match m r with
    | (Returned _, r') => (Returned tt, r')
    | (Thrown err, r') =>
        (Returned tt, {| trace := trace r'; unhandled := unhandled r' ++ [err] |})
    end.

Definition exec {A} (m : Async A) : Completion A * Runtime := m fresh.
Definition outcome {A} (m : Async A) : Completion A := fst (exec m).
Definition events {A} (m : Async A) : list Event := trace (snd (exec m)).
Definition rejections {A} (m : Async A) : list JsError := unhandled (snd (exec m)).

Declare Scope async_scope.
Delimit Scope async_scope with async.
Notation "x <- m ;; k" := (bind m (fun x => k))
  (at level 100, m at next level, right associativity) : async_scope.
Notation "' pat <- m ;; k" := (bind m (fun x => match x with pat => k end))
  (at level 100, pat pattern, m at next level, right associativity) : async_scope.
Notation "m ;; k" := (bind m (fun _ => k))
  (at level 100, right associativity) : async_scope.
Local Open Scope async_scope.

(** ** External collaborators *)

Record World := {
  (** [isBridgePaused()] *)
  on_isBridgePaused : Reply bool;
  (** [(await getWalletClient(config)).chain.id] *)
  on_getWalletClient : Reply Z;
  (** [readContract(config, { abi: erc721ABI, address, functionName:
      'getApproved', args: [tokenId], chainId })] *)
  on_getApproved : Address -> option Z -> Z -> Reply Address;
  (** [getCanonicalInfoForAddress({ address, srcChainId, destChainId,
      type: TokenType.ERC721 })] *)
  on_getCanonicalInfoForAddress : Address -> Z -> Z -> Reply (option CanonicalInfo.t);
  (** [tokenVaultContract.estimateGas.sendToken([op], { value })] *)
  on_estimateGas : Address -> NFTBridgeTransferOp.t -> Z -> Reply Z;
  on_simulateContract : ContractCall.t -> Reply unit;
  on_writeContract : ContractCall.t -> Reply Hash;
  (** [super.beforeClaiming(args)] of the base class [Bridge] *)
  on_beforeClaiming : ClaimArgs.t -> Reply (MessageStatus * Address);
  (** [this._prover.encodedSignalProof(msgHash, Number(srcChainId),
      Number(destChainId))] *)
  on_encodedSignalProof : Hash -> Z -> Z -> Reply string
}.

(** The same world with another answer of the pause-status checker. *)
Definition with_paused (W : World) (answer : Reply bool) : World :=
  {| on_isBridgePaused := answer;
     on_getWalletClient := on_getWalletClient W;
     on_getApproved := on_getApproved W;
     on_getCanonicalInfoForAddress := on_getCanonicalInfoForAddress W;
     on_estimateGas := on_estimateGas W;
     on_simulateContract := on_simulateContract W;
     on_writeContract := on_writeContract W;
     on_beforeClaiming := on_beforeClaiming W;
     on_encodedSignalProof := on_encodedSignalProof W |}.

(** ** The class *)

Module ERC721Bridge.

Section Methods.

Variable W : World.
Variable bridgeService : BridgeService.t.

(** *** Imported functions, as awaited by the class *)

Definition isBridgePaused : Async bool :=
  perform EvIsBridgePaused (on_isBridgePaused W).

Definition getWalletClient_chain_id : Async Z :=
  perform EvGetWalletClient (on_getWalletClient W).

Definition readContract_getApproved (address : Address) (tokenId : option Z)
    (chainId : Z) : Async Address :=
  perform (EvGetApproved address tokenId chainId)
          (on_getApproved W address tokenId chainId).

Definition getCanonicalInfoForAddress (address : Address) (srcChainId destChainId : Z)
    : Async (option CanonicalInfo.t) :=
  perform (EvGetCanonicalInfo address srcChainId destChainId)
          (on_getCanonicalInfoForAddress W address srcChainId destChainId).

Definition simulateContract (c : ContractCall.t) : Async unit :=
  perform (EvSimulate c) (on_simulateContract W c).

Definition writeContract (c : ContractCall.t) : Async Hash :=
  perform (EvWrite c) (on_writeContract W c).

Definition estimateGas_sendToken (contract : Contract.t) (op : NFTBridgeTransferOp.t)
    (value : Z) : Async Z :=
  perform (EvEstimateGas (Contract.address contract) op value)
          (on_estimateGas W (Contract.address contract) op value).

Definition beforeClaiming (args : ClaimArgs.t) : Async (MessageStatus * Address) :=
  perform (EvBeforeClaiming args) (on_beforeClaiming W args).

Definition encodedSignalProof (msgHash : Hash) (srcChainId destChainId : Z)
    : Async string :=
  perform (EvEncodedSignalProof msgHash srcChainId destChainId)
          (on_encodedSignalProof W msgHash srcChainId destChainId).

Definition console_error (err : JsError) : Async unit :=
  emit (EvConsoleError err).

Definition getContract (address : Address) : Contract.t :=
  {| Contract.address := address |}.

(** [wallet.chain.id], read where the source reads it without a guard. *)
Definition wallet_chain_id (wallet : option WalletClient.t) : Async Z :=
  match wallet with
  | Some {| WalletClient.chain := Some chain |} => ret (Chain.id chain)
  | _ => throw (Foreign "TypeError: Cannot read properties of undefined (reading 'id')")
  end.

(** [isBridgePaused().then((paused) => { if (paused) throw new
    BridgePausedError('Bridge is paused') })], not awaited. *)
Definition check_paused_unawaited : Async unit :=
  floating (paused <- isBridgePaused ;;
            if paused : bool
            then throw (Raised BridgePausedError "Bridge is paused" None)
            else ret tt).

(** *** requiresApproval (lines 39-57) *)

Definition requiresApproval (args : RequireApprovalArgs.t) : Async Address :=
  let tokenAddress := RequireApprovalArgs.tokenAddress args in
  let tokenId := RequireApprovalArgs.tokenId args in
  check_paused_unawaited ;;
  chainId <- getWalletClient_chain_id ;;
  requiresApproval <- readContract_getApproved tokenAddress tokenId chainId ;;
  ret requiresApproval.

(** *** _prepareTransaction (lines 278-322) *)

Definition _prepareTransaction (args : ERC721BridgeArgs.t)
    : Async (Contract.t * NFTBridgeTransferOp.t) :=
  let to := ERC721BridgeArgs.to args in
  let wallet := ERC721BridgeArgs.wallet args in
  let destChainId := ERC721BridgeArgs.destChainId args in
  let token := ERC721BridgeArgs.token args in
  let fee := ERC721BridgeArgs.fee args in
  let tokenVaultAddress := ERC721BridgeArgs.tokenVaultAddress args in
  let isTokenAlreadyDeployed := ERC721BridgeArgs.isTokenAlreadyDeployed args in
  let memo := match ERC721BridgeArgs.memo args with Some m => m | None => "" end in
  let tokenIds := ERC721BridgeArgs.tokenIds args in
  let amounts := ERC721BridgeArgs.amounts args in
  let tokenVaultContract := getContract tokenVaultAddress in
  match wallet with
  | Some {| WalletClient.account := Some account |} =>
      let refundTo := Account.address account in
      let gasLimit :=
        if negb isTokenAlreadyDeployed
        then BridgeService.noERC721TokenDeployedGasLimit bridgeService
        else if fee >? 0
             then BridgeService.noOwnerGasLimit bridgeService
             else 0 in
      let sendERC721Args :=
        {| NFTBridgeTransferOp.destChainId := destChainId;
           NFTBridgeTransferOp.to := to;
           NFTBridgeTransferOp.token := token;
           NFTBridgeTransferOp.gasLimit := gasLimit;
           NFTBridgeTransferOp.fee := fee;
           NFTBridgeTransferOp.refundTo := refundTo;
           NFTBridgeTransferOp.memo := memo;
           NFTBridgeTransferOp.tokenIds := tokenIds;
           NFTBridgeTransferOp.amounts := amounts |} in
      ret (tokenVaultContract, sendERC721Args)
  | _ => throw (Raised Error "Wallet is not connected" None)
  end.

(** *** estimateGas (lines 59-74) *)

Definition estimateGas (args : ERC721BridgeArgs.t) : Async Z :=
  check_paused_unawaited ;;
  '(tokenVaultContract, sendERC721Args) <- _prepareTransaction args ;;
  let value := NFTBridgeTransferOp.fee sendERC721Args in
  estimatedGas <- estimateGas_sendToken tokenVaultContract sendERC721Args value ;;
  ret estimatedGas.

(** *** bridge (lines 76-150) *)

Definition bridge (args : ERC721BridgeArgs.t) : Async Hash :=
  let token := ERC721BridgeArgs.token args in
  let tokenVaultAddress := ERC721BridgeArgs.tokenVaultAddress args in
  let tokenIds := ERC721BridgeArgs.tokenIds args in
  let wallet := ERC721BridgeArgs.wallet args in
  let srcChainId := ERC721BridgeArgs.srcChainId args in
  let destChainId := ERC721BridgeArgs.destChainId args in
  '(tokenVaultContract, sendERC721Args) <- _prepareTransaction args ;;
  let fee := NFTBridgeTransferOp.fee sendERC721Args in
  let tokenId := nth_error tokenIds 0 in
  try_catch
    (info <- getCanonicalInfoForAddress token srcChainId destChainId ;;
     match info with
     | None =>
         throw (Raised NoCanonicalInfoFoundError "No canonical info found for token" None)
     | Some info =>
         let canonicalTokenAddress := CanonicalInfo.address info in
         match wallet with
         | Some {| WalletClient.account := Some _; WalletClient.chain := Some chain |} =>
             if (canonicalTokenAddress =? token)%string
             then
               requireApproval <- requiresApproval
                 {| RequireApprovalArgs.tokenAddress := token;
                    RequireApprovalArgs.spenderAddress := tokenVaultAddress;
                    RequireApprovalArgs.tokenId := tokenId;
                    RequireApprovalArgs.chainId := Chain.id chain |} ;;
               if Js.truthy requireApproval
               then throw (Raised NotApprovedError
                             ("The token with id " ++ Js.of_optional_bigint tokenId
                              ++ " is not approved for the token vault") None)
               else ret tt
             else ret tt
         | _ => throw (Raised Error "Wallet is not connected" None)
         end
     end)
    (fun err =>
       throw (Raised SendERC721Error "failed to bridge ERC721 token" (Some err))) ;;
  try_catch
    (try_catch
       (simulateContract
          {| ContractCall.address := Contract.address tokenVaultContract;
             ContractCall.call := SendToken sendERC721Args;
             ContractCall.chainId := None;
             ContractCall.value := Some fee;
             ContractCall.gas := None |})
       (fun err => console_error err) ;;
     chainId <- wallet_chain_id wallet ;;
     txHash <- writeContract
       {| ContractCall.address := Contract.address tokenVaultContract;
          ContractCall.call := SendToken sendERC721Args;
          ContractCall.chainId := Some chainId;
          ContractCall.value := Some fee;
          ContractCall.gas := None |} ;;
     ret txHash)
    (fun err =>
       console_error err ;;
       if Js.includes (toString err) "denied transaction signature"
       then throw (UserRejectedRequestError err)
       else throw (Raised SendERC721Error "failed to bridge ERC721 token" (Some err))).

(** *** claim (lines 152-215) *)

Definition claim (args : ClaimArgs.t) : Async Hash :=
  '(messageStatus, destBridgeAddress) <- beforeClaiming args ;;
  let msgHash := ClaimArgs.msgHash args in
  let message := ClaimArgs.message args in
  let srcChainId := Message.srcChainId message in
  let destChainId := Message.destChainId message in
  if MessageStatus_eqb messageStatus NEW
  then
    proof <- encodedSignalProof msgHash srcChainId destChainId ;;
    txHash <- try_catch
      (if Message.gasLimit message >? BridgeService.erc721GasLimitThreshold bridgeService
       then
         simulateContract
           {| ContractCall.address := destBridgeAddress;
              ContractCall.call := ProcessMessage message proof;
              ContractCall.chainId := None;
              ContractCall.value := None;
              ContractCall.gas := Some (Message.gasLimit message) |} ;;
         writeContract
           {| ContractCall.address := destBridgeAddress;
              ContractCall.call := ProcessMessage message proof;
              ContractCall.chainId := None;
              ContractCall.value := None;
              ContractCall.gas := Some (Message.gasLimit message) |}
       else
         simulateContract
           {| ContractCall.address := destBridgeAddress;
              ContractCall.call := ProcessMessage message proof;
              ContractCall.chainId := None;
              ContractCall.value := None;
              ContractCall.gas := None |} ;;
         writeContract
           {| ContractCall.address := destBridgeAddress;
              ContractCall.call := ProcessMessage message proof;
              ContractCall.chainId := None;
              ContractCall.value := None;
              ContractCall.gas := None |})
      (fun err =>
         console_error err ;;
         if Js.includes (toString err) "denied transaction signature"
         then throw (UserRejectedRequestError err)
         else throw (Raised ProcessMessageError "failed to process message" (Some err))) ;;
    ret "0x"
  else
    throw (Raised Error "Not implemented" None).

(** *** release (lines 217-220) *)

Definition release : Async Hash := ret "0x".

(** *** approve (lines 222-276) *)

Definition approve (args : NFTApproveArgs.t) : Async Hash :=
  let tokenAddress := NFTApproveArgs.tokenAddress args in
  let spenderAddress := NFTApproveArgs.spenderAddress args in
  let wallet := NFTApproveArgs.wallet args in
  let tokenIds := NFTApproveArgs.tokenIds args in
  let tokenId := nth_error tokenIds 0 in
  match wallet with
  | Some {| WalletClient.account := Some _; WalletClient.chain := Some chain |} =>
      requireApproval <- requiresApproval
        {| RequireApprovalArgs.tokenAddress := tokenAddress;
           RequireApprovalArgs.spenderAddress := spenderAddress;
           RequireApprovalArgs.tokenId := tokenId;
           RequireApprovalArgs.chainId := Chain.id chain |} ;;
      if negb (Js.truthy requireApproval)
      then throw (Raised NoApprovalRequiredError
                    ("No approval required for the token "
                     ++ Js.of_optional_bigint tokenId) None)
      else
        try_catch
          (simulateContract
             {| ContractCall.address := tokenAddress;
                ContractCall.call := Approve spenderAddress tokenId;
                ContractCall.chainId := Some (Chain.id chain);
                ContractCall.value := None;
                ContractCall.gas := None |} ;;
           txHash <- writeContract
             {| ContractCall.address := tokenAddress;
                ContractCall.call := Approve spenderAddress tokenId;
                ContractCall.chainId := Some (Chain.id chain);
                ContractCall.value := None;
                ContractCall.gas := None |} ;;
           ret txHash)
          (fun err =>
             console_error err ;;
             if Js.includes (toString err) "denied transaction signature"
             then throw (UserRejectedRequestError err)
             else throw (Raised ApproveError "failed to approve ERC721 token" (Some err)))
  | _ => throw (Raised Error "Wallet is not connected" None)
  end.

End Methods.

End ERC721Bridge.

(** ** Concrete worlds, used to run the methods *)

Module Sample.

Definition vault : Address := "0x0000777700000000000000000000000000000002".
Definition nft : Address := "0x5FbDB2315678afecb367f032d93F642f64180aa3".
Definition bridged_nft : Address := "0xe7f1725E7734CE288F8367e1Bb143E90bb3F0512".
Definition owner : Address := "0x2D815240A61731c75Fa01b2793E1D3eD09F289d0".
Definition zero_address : Address := "0x0000000000000000000000000000000000000000".
Definition dest_bridge : Address := "0x1670000000000000000000000000000000000001".
Definition tx : Hash := "0xabc1".

Definition service : BridgeService.t :=
  {| BridgeService.noERC721TokenDeployedGasLimit := 2400000;
     BridgeService.noOwnerGasLimit := 140000;
     BridgeService.erc721GasLimitThreshold := 2640000 |}.

Definition wallet : WalletClient.t :=
  {| WalletClient.account := Some {| Account.address := owner |};
     WalletClient.chain := Some {| Chain.id := 31337 |} |}.

(** A world in which [getApproved] answers [approved] for every token id,
    the canonical address of every token is [canonical], every simulation
    succeeds, every write answers [written] and every message has status
    [status]. *)
Definition world (approved : Address) (canonical : Address)
    (written : Reply Hash) (status : MessageStatus) : World :=
  {| on_isBridgePaused := Resolved false;
     on_getWalletClient := Resolved 31337;
     on_getApproved := fun _ _ _ => Resolved approved;
     on_getCanonicalInfoForAddress := fun _ _ _ =>
       Resolved (Some {| CanonicalInfo.address := canonical;
                         CanonicalInfo.chainId := 31337 |});
     on_estimateGas := fun _ _ _ => Resolved 21000;
     on_simulateContract := fun _ => Resolved tt;
     on_writeContract := fun _ => written;
     on_beforeClaiming := fun _ => Resolved (status, dest_bridge);
     on_encodedSignalProof := fun _ _ _ => Resolved "0xproof" |}.

Definition bridge_args (token : Address) (tokenIds : list Z) (wallet : option WalletClient.t)
    : ERC721BridgeArgs.t :=
  {| ERC721BridgeArgs.to := owner;
     ERC721BridgeArgs.wallet := wallet;
     ERC721BridgeArgs.srcChainId := 31337;
     ERC721BridgeArgs.destChainId := 167;
     ERC721BridgeArgs.token := token;
     ERC721BridgeArgs.fee := 0;
     ERC721BridgeArgs.tokenVaultAddress := vault;
     ERC721BridgeArgs.isTokenAlreadyDeployed := true;
     ERC721BridgeArgs.memo := None;
     ERC721BridgeArgs.tokenIds := tokenIds;
     ERC721BridgeArgs.amounts := [] |}.

Definition approve_args (tokenIds : list Z) : NFTApproveArgs.t :=
  {| NFTApproveArgs.tokenAddress := nft;
     NFTApproveArgs.spenderAddress := vault;
     NFTApproveArgs.wallet := Some wallet;
     NFTApproveArgs.tokenIds := tokenIds |}.

Definition approval_args : RequireApprovalArgs.t :=
  {| RequireApprovalArgs.tokenAddress := nft;
     RequireApprovalArgs.spenderAddress := vault;
     RequireApprovalArgs.tokenId := Some 7;
     RequireApprovalArgs.chainId := 31337 |}.

Definition claim_args (gasLimit : Z) : ClaimArgs.t :=
  {| ClaimArgs.msgHash := "0xfeed";
     ClaimArgs.message :=
       {| Message.srcChainId := 31337;
          Message.destChainId := 167;
          Message.gasLimit := gasLimit;
          Message.data := "" |};
     ClaimArgs.wallet := Some wallet |}.

(** [W] with a wallet-client lookup that answers [reply]. *)
Definition with_wallet_client (W : World) (reply : Reply Z) : World :=
  {| on_isBridgePaused := on_isBridgePaused W;
     on_getWalletClient := reply;
     on_getApproved := on_getApproved W;
     on_getCanonicalInfoForAddress := on_getCanonicalInfoForAddress W;
     on_estimateGas := on_estimateGas W;
     on_simulateContract := on_simulateContract W;
     on_writeContract := on_writeContract W;
     on_beforeClaiming := on_beforeClaiming W;
     on_encodedSignalProof := on_encodedSignalProof W |}.

(** [W] with simulations that answer [reply]. *)
Definition with_simulation (W : World) (reply : Reply unit) : World :=
  {| on_isBridgePaused := on_isBridgePaused W;
     on_getWalletClient := on_getWalletClient W;
     on_getApproved := on_getApproved W;
     on_getCanonicalInfoForAddress := on_getCanonicalInfoForAddress W;
     on_estimateGas := on_estimateGas W;
     on_simulateContract := fun _ => reply;
     on_writeContract := on_writeContract W;
     on_beforeClaiming := on_beforeClaiming W;
     on_encodedSignalProof := on_encodedSignalProof W |}.

Definition denied : string := "Error: User denied transaction signature".

End Sample.

(** ** Vocabulary of the statements *)

(** The class of the error a call failed with, when it is one of the
    classes of this repository. *)
Definition thrown_name {A} (c : Completion A) : option ErrorName :=
  match c with
  | Thrown (Raised name _ _) => Some name
  | _ => None
  end.

(** The write calls a computation submitted. *)
Definition writes {A} (m : Async A) : list Event := filter is_write (events m).

(** The simulate and write calls a computation issued, in order. *)
Definition contract_calls {A} (m : Async A) : list Event :=
  filter is_contract_call (events m).

(** The spec's words for the approval check: whether the vault is the
    address the approval getter answers. *)
Definition vault_is_authorized (getter_answer spender : Address) : bool :=
  (getter_answer =? spender)%string.

(** The [processMessage] call of [claim] with a given [gas] option. *)
Definition processMessage_call (dest : Address) (message : Message.t) (proof : string)
    (gas : option Z) : ContractCall.t :=
  {| ContractCall.address := dest;
     ContractCall.call := ProcessMessage message proof;
     ContractCall.chainId := None;
     ContractCall.value := None;
     ContractCall.gas := gas |}.

(** * The genesis configuration

    Source: packages/protocol/config.js, the configuration that derives
    the addresses of the pre-deployed contracts from the chain id. *)

Module Config.

Definition ADDRESS_LENGTH : Z := 40.

(** What [getConstantAddress] receives as [prefix] and [suffix]: a string
    (the template [`0${this.chainId}`]) or an integer number. *)
Inductive Value :=
| Str (s : string)
| Num (n : Z).

(** [String(v)]; an integer number below 10^21 prints as its decimal
    digits. *)
Definition String_ (v : Value) : string :=
  match v with
  | Str s => s
  | Num n => NilZero.string_of_int (Z.to_int n)
  end.

Inductive RangeError :=
| InvalidCountValue (count : Z).

Fixpoint zeros (n : nat) : string :=
  match n with
  | O => ""
  | S k => String "0"%char (zeros k)
  end.

(** ["0".repeat(count)]: a [RangeError] for a negative count. *)
Definition repeat_zero (count : Z) : RangeError + string :=
  if count <? 0 then inl (InvalidCountValue count) else inr (zeros (Z.to_nat count)).

(** [getConstantAddress] (lines 72-76). *)
Definition getConstantAddress (prefix suffix : Value) : RangeError + string :=
  match repeat_zero (ADDRESS_LENGTH
                     - Z.of_nat (String.length (String_ prefix))
                     - Z.of_nat (String.length (String_ suffix))) with
  | inl err => inl err
  | inr padding => inr ("0x" ++ String_ prefix ++ padding ++ String_ suffix)
  end.

(** The properties of the object literal of [contractAddresses], in
    order: key, prefix and suffix of each [getConstantAddress] call. *)
Definition contractAddresses_calls (chainId : Z) : list (string * Value * Value) :=
  let impl := Str ("0" ++ String_ (Num chainId)) in
  let proxy := Num chainId in
  [ ("BridgeImpl", impl, Num 1);
    ("ERC20VaultImpl", impl, Num 2);
    ("ERC721VaultImpl", impl, Num 3);
    ("ERC1155VaultImpl", impl, Num 4);
    ("SignalServiceImpl", impl, Num 5);
    ("SharedAddressManagerImpl", impl, Num 6);
    ("BridgedERC20Impl", impl, Num 10096);
    ("BridgedERC721Impl", impl, Num 10097);
    ("BridgedERC1155Impl", impl, Num 10098);
    ("TaikoL2Impl", impl, Num 10001);
    ("RollupAddressManagerImpl", impl, Num 10002);
    ("Bridge", proxy, Num 1);
    ("ERC20Vault", proxy, Num 2);
    ("ERC721Vault", proxy, Num 3);
    ("ERC1155Vault", proxy, Num 4);
    ("SignalService", proxy, Num 5);
    ("SharedAddressManager", proxy, Num 6);
    ("TaikoL2", proxy, Num 10001);
    ("RollupAddressManager", proxy, Num 10002) ].

(** Evaluation of the object literal: the calls run in order and the first
    error is thrown. *)
Fixpoint evaluate (calls : list (string * Value * Value))
    : RangeError + list (string * string) :=
  match calls with
  | [] => inr []
  | (key, prefix, suffix) :: rest =>
      match getConstantAddress prefix suffix with
      | inl err => inl err
      | inr address =>
          match evaluate rest with
          | inl err => inl err
          | inr others => inr ((key, address) :: others)
          end
      end
  end.

(** The getter [contractAddresses] (lines 37-66), for [this.chainId]. *)
Definition contractAddresses (chainId : Z) : RangeError + list (string * string) :=
  evaluate (contractAddresses_calls chainId).

(** Leading ['0'] characters removed. *)
Fixpoint strip_zeros (s : string) : string :=
  match s with
  | String "0"%char rest => strip_zeros rest
  | _ => s
  end.

End Config.

(** ** Further vocabulary *)

(** [W] with another simulation oracle. *)
Definition with_simulateContract (W : World) (f : ContractCall.t -> Reply unit) : World :=
  {| on_isBridgePaused := on_isBridgePaused W;
     on_getWalletClient := on_getWalletClient W;
     on_getApproved := on_getApproved W;
     on_getCanonicalInfoForAddress := on_getCanonicalInfoForAddress W;
     on_estimateGas := on_estimateGas W;
     on_simulateContract := f;
     on_writeContract := on_writeContract W;
     on_beforeClaiming := on_beforeClaiming W;
     on_encodedSignalProof := on_encodedSignalProof W |}.

(** [wallet?.account] and [wallet?.chain]. *)
Definition wallet_account (wallet : option WalletClient.t) : option Account.t :=
  match wallet with
  | Some w => WalletClient.account w
  | None => None
  end.

Definition wallet_chain (wallet : option WalletClient.t) : option Chain.t :=
  match wallet with
  | Some w => WalletClient.chain w
  | None => None
  end.

(** The three calls [requiresApproval] makes. *)
Definition is_approval_step (ev : Event) : bool :=
  match ev with
  | EvIsBridgePaused | EvGetWalletClient | EvGetApproved _ _ _ => true
  | _ => false
  end.

(** The [sendToken] call on the vault: the descriptor as only argument and
    its fee as value. *)
Definition sendToken_call (vault : Address) (op : NFTBridgeTransferOp.t)
    (chainId : option Z) : ContractCall.t :=
  {| ContractCall.address := vault;
     ContractCall.call := SendToken op;
     ContractCall.chainId := chainId;
     ContractCall.value := Some (NFTBridgeTransferOp.fee op);
     ContractCall.gas := None |}.

(** The [approve] call on the token contract. *)
Definition approve_call (token spender : Address) (tokenId : option Z) (chainId : Z)
    : ContractCall.t :=
  {| ContractCall.address := token;
     ContractCall.call := Approve spender tokenId;
     ContractCall.chainId := Some chainId;
     ContractCall.value := None;
     ContractCall.gas := None |}.

(** The descriptor [_prepareTransaction] builds for a refund address. *)
Definition descriptor_of (cfg : BridgeService.t) (args : ERC721BridgeArgs.t)
    (refundTo : Address) : NFTBridgeTransferOp.t :=
  {| NFTBridgeTransferOp.destChainId := ERC721BridgeArgs.destChainId args;
     NFTBridgeTransferOp.to := ERC721BridgeArgs.to args;
     NFTBridgeTransferOp.token := ERC721BridgeArgs.token args;
     NFTBridgeTransferOp.gasLimit :=
       if negb (ERC721BridgeArgs.isTokenAlreadyDeployed args)
       then BridgeService.noERC721TokenDeployedGasLimit cfg
       else if ERC721BridgeArgs.fee args >? 0
            then BridgeService.noOwnerGasLimit cfg
            else 0;
     NFTBridgeTransferOp.fee := ERC721BridgeArgs.fee args;
     NFTBridgeTransferOp.refundTo := refundTo;
     NFTBridgeTransferOp.memo :=
       match ERC721BridgeArgs.memo args with Some m => m | None => "" end;
     NFTBridgeTransferOp.tokenIds := ERC721BridgeArgs.tokenIds args;
     NFTBridgeTransferOp.amounts := ERC721BridgeArgs.amounts args |}.

(** * Properties *)

Import ERC721Bridge.

Example includes_inside :
  Js.includes "TransactionExecutionError: User denied transaction signature."
              "denied transaction signature" = true.
Proof. reflexivity. Qed.

Example includes_absent :
  Js.includes "ContractFunctionExecutionError: execution reverted"
              "denied transaction signature" = false.
Proof. reflexivity. Qed.

Example includes_is_case_sensitive :
  Js.includes "Denied Transaction Signature" "denied transaction signature" = false.
Proof. reflexivity. Qed.

Example toString_of_raised :
  toString (Raised NotApprovedError "The token with id 7 is not approved for the token vault" None)
    = "NotApprovedError: The token with id 7 is not approved for the token vault".
Proof. reflexivity. Qed.

Example of_optional_bigint_values :
  Js.of_optional_bigint (Some 42) = "42" /\ Js.of_optional_bigint None = "undefined".
Proof. split; reflexivity. Qed.

(** [tokenIds[0]] stays as written while the methods are unfolded. *)
#[local] Arguments nth_error : simpl never.

Ltac run :=
  unfold outcome, events, rejections, writes, contract_calls, exec,
    claim, approve, bridge, estimateGas, requiresApproval, _prepareTransaction,
    check_paused_unawaited, isBridgePaused, getWalletClient_chain_id,
    readContract_getApproved, getCanonicalInfoForAddress, simulateContract,
    writeContract, estimateGas_sendToken, beforeClaiming, encodedSignalProof,
    console_error, wallet_chain_id, processMessage_call,
    floating, try_catch, bind, perform, emit, throw, ret, fresh.

(** ** _prepareTransaction *)

(** C7: with a connected wallet, [_prepareTransaction] returns a descriptor
    whose gas limit is [noERC721TokenDeployedGasLimit] when the token is not
    yet deployed on the destination, else [noOwnerGasLimit] when the fee is
    strictly positive, else zero. *)
Theorem prepareTransaction_gas_limit_rule :
  forall (cfg : BridgeService.t) (args : ERC721BridgeArgs.t)
         (account : Account.t) (chain : option Chain.t),
    ERC721BridgeArgs.wallet args
      = Some {| WalletClient.account := Some account; WalletClient.chain := chain |} ->
    exists contract op,
      outcome (_prepareTransaction cfg args) = Returned (contract, op) /\
      (ERC721BridgeArgs.isTokenAlreadyDeployed args = false ->
         NFTBridgeTransferOp.gasLimit op
           = BridgeService.noERC721TokenDeployedGasLimit cfg) /\
      (ERC721BridgeArgs.isTokenAlreadyDeployed args = true ->
       0 < ERC721BridgeArgs.fee args ->
         NFTBridgeTransferOp.gasLimit op = BridgeService.noOwnerGasLimit cfg) /\
      (ERC721BridgeArgs.isTokenAlreadyDeployed args = true ->
       ERC721BridgeArgs.fee args <= 0 ->
         NFTBridgeTransferOp.gasLimit op = 0).
Proof.
  intros cfg args account chain Hwallet.
  run. rewrite Hwallet. cbn.
  eexists. eexists. split; [reflexivity|].
  cbn. repeat split.
  - intros ->. reflexivity.
  - intros -> Hfee. cbn.
    destruct (Z.gtb_spec (ERC721BridgeArgs.fee args) 0); [reflexivity | lia].
  - intros -> Hfee. cbn.
    destruct (Z.gtb_spec (ERC721BridgeArgs.fee args) 0); [lia | reflexivity].
Qed.

Lemma prepareTransaction_gas_limit_rule_witness :
  let args := Sample.bridge_args Sample.nft [7] (Some Sample.wallet) in
  exists contract op,
    outcome (_prepareTransaction Sample.service args) = Returned (contract, op) /\
    (ERC721BridgeArgs.isTokenAlreadyDeployed args = false ->
       NFTBridgeTransferOp.gasLimit op = 2400000) /\
    (ERC721BridgeArgs.isTokenAlreadyDeployed args = true ->
     0 < ERC721BridgeArgs.fee args ->
       NFTBridgeTransferOp.gasLimit op = 140000) /\
    (ERC721BridgeArgs.isTokenAlreadyDeployed args = true ->
     ERC721BridgeArgs.fee args <= 0 ->
       NFTBridgeTransferOp.gasLimit op = 0).
Proof.
  exact (prepareTransaction_gas_limit_rule Sample.service
           (Sample.bridge_args Sample.nft [7] (Some Sample.wallet)) _ _ eq_refl).
Defined.

(** ** claim *)

(** C4: when the message status is [NEW] and the proof is fetched, the
    [processMessage] calls of [claim] are the simulation and, when the
    simulation succeeds, the write; both carry the message's gas limit as
    explicit [gas] when it is strictly above [erc721GasLimitThreshold], and
    no [gas] option otherwise. *)
Theorem claim_new_gas_option :
  forall (W : World) (cfg : BridgeService.t) (args : ClaimArgs.t)
         (dest : Address) (proof : string),
    on_beforeClaiming W args = Resolved (NEW, dest) ->
    on_encodedSignalProof W (ClaimArgs.msgHash args)
      (Message.srcChainId (ClaimArgs.message args))
      (Message.destChainId (ClaimArgs.message args)) = Resolved proof ->
    let message := ClaimArgs.message args in
    let call := processMessage_call dest message proof in
    let calls gas :=
      EvSimulate (call gas) ::
      match on_simulateContract W (call gas) with
      | Resolved _ => [EvWrite (call gas)]
      | Rejected _ => []
      end in
    (BridgeService.erc721GasLimitThreshold cfg < Message.gasLimit message ->
       contract_calls (claim W cfg args) = calls (Some (Message.gasLimit message))) /\
    (Message.gasLimit message <= BridgeService.erc721GasLimitThreshold cfg ->
       contract_calls (claim W cfg args) = calls None).
Proof.
  intros W cfg args dest proof Hstatus Hproof message call calls.
  subst calls call message. run. rewrite Hstatus. cbn. rewrite Hproof. cbn.
  split; intros Hgas;
    destruct (Z.gtb_spec (Message.gasLimit (ClaimArgs.message args))
                (BridgeService.erc721GasLimitThreshold cfg)); try lia;
    cbn;
    match goal with
    | |- context [on_simulateContract W ?c] =>
        destruct (on_simulateContract W c) as [[]|text]; cbn;
        [ destruct (on_writeContract W c) as [h|text]; cbn
        | ]
    end;
    repeat match goal with
    | |- context [if ?b then _ else _] => destruct b
    end; reflexivity.
Qed.

Lemma claim_new_gas_option_witness :
  let W := Sample.world Sample.vault Sample.nft (Resolved Sample.tx) NEW in
  let high := Sample.claim_args 3000000 in
  let low := Sample.claim_args 2640000 in
  contract_calls (claim W Sample.service high)
    = [EvSimulate (processMessage_call Sample.dest_bridge (ClaimArgs.message high)
                     "0xproof" (Some 3000000));
       EvWrite (processMessage_call Sample.dest_bridge (ClaimArgs.message high)
                  "0xproof" (Some 3000000))] /\
  contract_calls (claim W Sample.service low)
    = [EvSimulate (processMessage_call Sample.dest_bridge (ClaimArgs.message low)
                     "0xproof" None);
       EvWrite (processMessage_call Sample.dest_bridge (ClaimArgs.message low)
                  "0xproof" None)].
Proof.
  intros W high low. split.
  - apply (claim_new_gas_option W Sample.service high Sample.dest_bridge "0xproof"
             eq_refl eq_refl).
    reflexivity.
  - apply (claim_new_gas_option W Sample.service low Sample.dest_bridge "0xproof"
             eq_refl eq_refl).
    subst low. cbn. lia.
Defined.

(** C5: when the message status is not [NEW], [claim] throws
    [Error('Not implemented')] and submits no write; the only call it made
    is the pre-claim check. *)
Theorem claim_not_new_not_implemented :
  forall (W : World) (cfg : BridgeService.t) (args : ClaimArgs.t)
         (status : MessageStatus) (dest : Address),
    on_beforeClaiming W args = Resolved (status, dest) ->
    status <> NEW ->
    outcome (claim W cfg args) = Thrown (Raised Error "Not implemented" None) /\
    writes (claim W cfg args) = [] /\
    events (claim W cfg args) = [EvBeforeClaiming args].
Proof.
  intros W cfg args status dest Hstatus Hnew.
  run. rewrite Hstatus. cbn.
  destruct status; [congruence | | ]; cbn; repeat split; reflexivity.
Qed.

Lemma claim_not_new_not_implemented_witness :
  let W := Sample.world Sample.vault Sample.nft (Resolved Sample.tx) RETRIABLE in
  outcome (claim W Sample.service (Sample.claim_args 3000000))
    = Thrown (Raised Error "Not implemented" None) /\
  writes (claim W Sample.service (Sample.claim_args 3000000)) = [] /\
  events (claim W Sample.service (Sample.claim_args 3000000))
    = [EvBeforeClaiming (Sample.claim_args 3000000)].
Proof.
  intros W.
  apply (claim_not_new_not_implemented W Sample.service (Sample.claim_args 3000000)
           RETRIABLE Sample.dest_bridge eq_refl).
  discriminate.
Defined.

(** C8: a successful [claim] (status [NEW], proof fetched, simulation and
    write both successful) returns the constant ['0x'], whatever hash the
    write produced; the write was submitted. *)
Theorem claim_success_returns_0x :
  forall (W : World) (cfg : BridgeService.t) (args : ClaimArgs.t)
         (dest : Address) (proof : string) (txHash : Hash),
    on_beforeClaiming W args = Resolved (NEW, dest) ->
    on_encodedSignalProof W (ClaimArgs.msgHash args)
      (Message.srcChainId (ClaimArgs.message args))
      (Message.destChainId (ClaimArgs.message args)) = Resolved proof ->
    (forall c, on_simulateContract W c = Resolved tt) ->
    (forall c, on_writeContract W c = Resolved txHash) ->
    outcome (claim W cfg args) = Returned "0x" /\
    exists c, writes (claim W cfg args) = [EvWrite c].
Proof.
  intros W cfg args dest proof txHash Hstatus Hproof Hsim Hwrite.
  run. rewrite Hstatus. cbn. rewrite Hproof. cbn.
  destruct (Message.gasLimit (ClaimArgs.message args)
              >? BridgeService.erc721GasLimitThreshold cfg);
    cbn; rewrite Hsim; cbn; rewrite Hwrite; cbn;
    (split; [reflexivity | eexists; reflexivity]).
Qed.

Lemma claim_success_returns_0x_witness :
  let W := Sample.world Sample.vault Sample.nft (Resolved Sample.tx) NEW in
  Sample.tx <> "0x" /\
  outcome (claim W Sample.service (Sample.claim_args 3000000)) = Returned "0x" /\
  exists c, writes (claim W Sample.service (Sample.claim_args 3000000)) = [EvWrite c].
Proof.
  intros W. split; [discriminate|].
  apply (claim_success_returns_0x W Sample.service (Sample.claim_args 3000000)
           Sample.dest_bridge "0xproof" Sample.tx eq_refl eq_refl);
    intros c; reflexivity.
Defined.

(** ** The pause check of requiresApproval and estimateGas *)

Lemma requiresApproval_run :
  forall (W : World) (args : RequireApprovalArgs.t),
    outcome (requiresApproval W args)
      = match on_getWalletClient W with
        | Resolved chainId =>
            match on_getApproved W (RequireApprovalArgs.tokenAddress args)
                    (RequireApprovalArgs.tokenId args) chainId with
            | Resolved answer => Returned answer
            | Rejected text => Thrown (Foreign text)
            end
        | Rejected text => Thrown (Foreign text)
        end.
Proof.
  intros W args. run.
  destruct (on_isBridgePaused W) as [[|]|?]; cbn;
    destruct (on_getWalletClient W) as [chainId|?]; cbn; try reflexivity;
    destruct (on_getApproved W _ _ chainId); reflexivity.
Qed.

Lemma estimateGas_run :
  forall (W : World) (cfg : BridgeService.t) (args : ERC721BridgeArgs.t),
    outcome (estimateGas W cfg args)
      = match outcome (_prepareTransaction cfg args) with
        | Returned (contract, op) =>
            match on_estimateGas W (Contract.address contract) op
                    (NFTBridgeTransferOp.fee op) with
            | Resolved gas => Returned gas
            | Rejected text => Thrown (Foreign text)
            end
        | Thrown err => Thrown err
        end.
Proof.
  intros W cfg args. run.
  destruct (on_isBridgePaused W) as [[|]|?]; cbn;
    destruct (ERC721BridgeArgs.wallet args) as [[[account|] chain]|]; cbn;
    try reflexivity;
    match goal with
    | |- context [on_estimateGas W ?a ?o ?v] => destruct (on_estimateGas W a o v)
    end; reflexivity.
Qed.

(** C9: the result of [requiresApproval] and of [estimateGas] is the same
    whatever the pause-status checker answers, and it is never the
    [BridgePausedError]; when the bridge is paused that error is left as an
    unhandled rejection of the dropped promise. *)
Theorem pause_check_is_not_awaited :
  forall (W : World) (cfg : BridgeService.t) (paused paused' : Reply bool)
         (approval : RequireApprovalArgs.t) (args : ERC721BridgeArgs.t),
    (outcome (requiresApproval (with_paused W paused) approval)
       = outcome (requiresApproval (with_paused W paused') approval) /\
     thrown_name (outcome (requiresApproval (with_paused W paused) approval))
       <> Some BridgePausedError) /\
    (outcome (estimateGas (with_paused W paused) cfg args)
       = outcome (estimateGas (with_paused W paused') cfg args) /\
     thrown_name (outcome (estimateGas (with_paused W paused) cfg args))
       <> Some BridgePausedError) /\
    (In (Raised BridgePausedError "Bridge is paused" None)
        (rejections (requiresApproval (with_paused W (Resolved true)) approval)) /\
     In (Raised BridgePausedError "Bridge is paused" None)
        (rejections (estimateGas (with_paused W (Resolved true)) cfg args))).
Proof.
  intros W cfg paused paused' approval args.
  split; [|split].
  - rewrite !requiresApproval_run. cbn. split; [reflexivity|].
    destruct (on_getWalletClient W) as [chainId|?]; cbn; [|discriminate].
    destruct (on_getApproved W _ _ chainId); cbn; discriminate.
  - rewrite !estimateGas_run. cbn. split; [reflexivity|].
    unfold outcome, exec, _prepareTransaction, throw, ret.
    destruct (ERC721BridgeArgs.wallet args) as [[[account|] chain]|]; cbn;
      try discriminate.
    match goal with
    | |- context [on_estimateGas W ?a ?o ?v] => destruct (on_estimateGas W a o v)
    end; cbn; discriminate.
  - split; run; cbn.
    + destruct (on_getWalletClient W) as [chainId|?]; cbn; [|left; reflexivity].
      destruct (on_getApproved W _ _ chainId); cbn; left; reflexivity.
    + destruct (ERC721BridgeArgs.wallet args) as [[[account|] chain]|]; cbn;
        try (left; reflexivity).
      match goal with
      | |- context [on_estimateGas W ?a ?o ?v] => destruct (on_estimateGas W a o v)
      end; cbn; left; reflexivity.
Qed.

(** ** requiresApproval *)

(** C1, the code at two inputs: [requiresApproval] returns the address the
    approval getter answered, not the comparison of that address with the
    spender.  Read as a condition, as [bridge] and [approve] read it, the
    returned string is true both when the vault is the approved address and
    when it is not. *)
Theorem requiresApproval_returns_getter_answer :
  let approved := Sample.world Sample.vault Sample.nft (Resolved Sample.tx) NEW in
  let unapproved := Sample.world Sample.zero_address Sample.nft (Resolved Sample.tx) NEW in
  (outcome (requiresApproval approved Sample.approval_args) = Returned Sample.vault /\
   Js.truthy Sample.vault = true /\
   vault_is_authorized Sample.vault
     (RequireApprovalArgs.spenderAddress Sample.approval_args) = true) /\
  (outcome (requiresApproval unapproved Sample.approval_args)
     = Returned Sample.zero_address /\
   Js.truthy Sample.zero_address = true /\
   vault_is_authorized Sample.zero_address
     (RequireApprovalArgs.spenderAddress Sample.approval_args) = false).
Proof.
  cbv zeta. rewrite !requiresApproval_run. repeat split.
Qed.

(** ** approve *)

(** C2, the code at the failing input: the vault is already the approved
    address of token 7, and [approve] simulates and submits the [approve]
    write and returns its hash. *)
Theorem approve_writes_when_already_approved :
  let W := Sample.world Sample.vault Sample.nft (Resolved Sample.tx) NEW in
  let args := Sample.approve_args [7] in
  let call :=
    {| ContractCall.address := Sample.nft;
       ContractCall.call := Approve Sample.vault (Some 7);
       ContractCall.chainId := Some 31337;
       ContractCall.value := None;
       ContractCall.gas := None |} in
  on_getApproved W (NFTApproveArgs.tokenAddress args) (Some 7) 31337
    = Resolved (NFTApproveArgs.spenderAddress args) /\
  outcome (approve W args) = Returned Sample.tx /\
  contract_calls (approve W args) = [EvSimulate call; EvWrite call].
Proof.
  cbv zeta. repeat split.
Qed.

(** ** bridge *)

(** A native token that is not approved for the vault, with a connected
    wallet: the error [bridge] fails with is not the [NotApprovedError]. *)
Lemma bridge_not_approved_counterexample :
  let W := Sample.world Sample.zero_address Sample.nft (Resolved Sample.tx) NEW in
  let args := Sample.bridge_args Sample.nft [7] (Some Sample.wallet) in
  on_getCanonicalInfoForAddress W (ERC721BridgeArgs.token args)
      (ERC721BridgeArgs.srcChainId args) (ERC721BridgeArgs.destChainId args)
    = Resolved (Some {| CanonicalInfo.address := ERC721BridgeArgs.token args;
                        CanonicalInfo.chainId := 31337 |}) /\
  on_getApproved W (ERC721BridgeArgs.token args) (Some 7) 31337
    = Resolved Sample.zero_address /\
  vault_is_authorized Sample.zero_address (ERC721BridgeArgs.tokenVaultAddress args)
    = false /\
  thrown_name (outcome (bridge W Sample.service args)) = Some SendERC721Error /\
  thrown_name (outcome (bridge W Sample.service args)) <> Some NotApprovedError.
Proof.
  cbv zeta. repeat split. vm_compute. discriminate.
Qed.

(** C3 (amended): on a native token whose approval getter answers an
    address that is not the vault, [bridge] fails and submits no write; when
    the wallet is connected (account and chain) the error is
    [SendERC721Error] whose cause is the [NotApprovedError]. *)
Theorem bridge_native_not_approved :
  forall (W : World) (cfg : BridgeService.t) (args : ERC721BridgeArgs.t)
         (info : CanonicalInfo.t) (chainId : Z) (answer : Address),
    on_getCanonicalInfoForAddress W (ERC721BridgeArgs.token args)
        (ERC721BridgeArgs.srcChainId args) (ERC721BridgeArgs.destChainId args)
      = Resolved (Some info) ->
    CanonicalInfo.address info = ERC721BridgeArgs.token args ->
    on_getWalletClient W = Resolved chainId ->
    on_getApproved W (ERC721BridgeArgs.token args)
        (nth_error (ERC721BridgeArgs.tokenIds args) 0) chainId
      = Resolved answer ->
    answer <> ""%string ->
    vault_is_authorized answer (ERC721BridgeArgs.tokenVaultAddress args) = false ->
    (exists err, outcome (bridge W cfg args) = Thrown err) /\
    writes (bridge W cfg args) = [] /\
    (forall (account : Account.t) (chain : Chain.t),
        ERC721BridgeArgs.wallet args
          = Some {| WalletClient.account := Some account;
                    WalletClient.chain := Some chain |} ->
        outcome (bridge W cfg args)
          = Thrown (Raised SendERC721Error "failed to bridge ERC721 token"
                      (Some (Raised NotApprovedError
                               ("The token with id "
                                ++ Js.of_optional_bigint
                                     (nth_error (ERC721BridgeArgs.tokenIds args) 0)
                                ++ " is not approved for the token vault") None)))).
Proof.
  intros W cfg args info chainId answer
         Hinfo Hnative Hclient Hanswer Hnonempty Hvault.
  assert (Htruthy : Js.truthy answer = true).
  { unfold Js.truthy. apply negb_true_iff. apply String.eqb_neq. exact Hnonempty. }
  run.
  destruct (ERC721BridgeArgs.wallet args) as [[[account|] [chain|]]|]; cbn;
    try rewrite Hinfo; cbn.
  2-5: (split; [eexists; reflexivity
               | split; [reflexivity | intros ? ? Hconnected; discriminate Hconnected]]).
  rewrite Hnative, String.eqb_refl. cbn.
  destruct (on_isBridgePaused W) as [[|]|?]; cbn;
    rewrite Hclient; cbn; rewrite Hanswer; cbn; rewrite Htruthy; cbn;
    (split; [eexists; reflexivity | split; [reflexivity | intros; reflexivity]]).
Qed.

Lemma bridge_native_not_approved_witness :
  let W := Sample.world Sample.zero_address Sample.nft (Resolved Sample.tx) NEW in
  let args := Sample.bridge_args Sample.nft [7] (Some Sample.wallet) in
  (exists err, outcome (bridge W Sample.service args) = Thrown err) /\
  writes (bridge W Sample.service args) = [] /\
  outcome (bridge W Sample.service args)
    = Thrown (Raised SendERC721Error "failed to bridge ERC721 token"
                (Some (Raised NotApprovedError
                         "The token with id 7 is not approved for the token vault"
                         None))).
Proof.
  intros W args.
  assert (Hnonempty : Sample.zero_address <> ""%string) by discriminate.
  destruct (bridge_native_not_approved W Sample.service args _ 31337
              Sample.zero_address eq_refl eq_refl eq_refl eq_refl Hnonempty eq_refl)
    as (Hfails & Hwrites & Herror).
  split; [exact Hfails|]. split; [exact Hwrites|].
  exact (Herror _ _ eq_refl).
Defined.

(** ** The user-rejection check *)

(** The wallet-client lookup of the approval query fails with a text that
    contains "denied transaction signature": [bridge] wraps it as
    [SendERC721Error]. *)
Lemma denied_signature_counterexample :
  let W := Sample.with_wallet_client
             (Sample.world Sample.zero_address Sample.nft (Resolved Sample.tx) NEW)
             (Rejected Sample.denied) in
  let args := Sample.bridge_args Sample.nft [7] (Some Sample.wallet) in
  Js.includes Sample.denied "denied transaction signature" = true /\
  outcome (bridge W Sample.service args)
    = Thrown (Raised SendERC721Error "failed to bridge ERC721 token"
                (Some (Foreign Sample.denied))) /\
  outcome (bridge W Sample.service args)
    <> Thrown (UserRejectedRequestError (Foreign Sample.denied)).
Proof.
  cbv zeta. repeat split. vm_compute. discriminate.
Qed.

(** C6 (amended): in [bridge], [claim] and [approve], an error of the
    write call whose text contains "denied transaction signature" is
    re-raised as [UserRejectedRequestError] and not wrapped in the
    operation's own error; in [claim] and [approve] the same holds for an
    error of the simulation. *)
Theorem denied_signature_is_user_rejection :
  forall (W : World) (cfg : BridgeService.t) (text : string),
    Js.includes text "denied transaction signature" = true ->
    (forall (args : ERC721BridgeArgs.t) (account : Account.t) (chain : Chain.t)
            (info : CanonicalInfo.t),
        ERC721BridgeArgs.wallet args
          = Some {| WalletClient.account := Some account;
                    WalletClient.chain := Some chain |} ->
        on_getCanonicalInfoForAddress W (ERC721BridgeArgs.token args)
            (ERC721BridgeArgs.srcChainId args) (ERC721BridgeArgs.destChainId args)
          = Resolved (Some info) ->
        CanonicalInfo.address info <> ERC721BridgeArgs.token args ->
        (forall c, on_writeContract W c = Rejected text) ->
        outcome (bridge W cfg args) = Thrown (UserRejectedRequestError (Foreign text)))
    /\
    (forall (args : ClaimArgs.t) (dest : Address) (proof : string),
        on_beforeClaiming W args = Resolved (NEW, dest) ->
        on_encodedSignalProof W (ClaimArgs.msgHash args)
          (Message.srcChainId (ClaimArgs.message args))
          (Message.destChainId (ClaimArgs.message args)) = Resolved proof ->
        (forall c, on_simulateContract W c = Rejected text) \/
        ((forall c, on_simulateContract W c = Resolved tt) /\
         (forall c, on_writeContract W c = Rejected text)) ->
        outcome (claim W cfg args) = Thrown (UserRejectedRequestError (Foreign text)))
    /\
    (forall (args : NFTApproveArgs.t) (account : Account.t) (chain : Chain.t)
            (chainId : Z) (answer : Address),
        NFTApproveArgs.wallet args
          = Some {| WalletClient.account := Some account;
                    WalletClient.chain := Some chain |} ->
        on_getWalletClient W = Resolved chainId ->
        on_getApproved W (NFTApproveArgs.tokenAddress args)
            (nth_error (NFTApproveArgs.tokenIds args) 0) chainId
          = Resolved answer ->
        answer <> ""%string ->
        (forall c, on_simulateContract W c = Rejected text) \/
        ((forall c, on_simulateContract W c = Resolved tt) /\
         (forall c, on_writeContract W c = Rejected text)) ->
        outcome (approve W args) = Thrown (UserRejectedRequestError (Foreign text))).
Proof.
  intros W cfg text Hdenied. split; [|split].
  - intros args account chain info Hwallet Hinfo Hbridged Hwrite.
    apply String.eqb_neq in Hbridged.
    run. rewrite Hwallet. cbn. rewrite Hinfo. cbn. rewrite Hbridged. cbn.
    match goal with
    | |- context [on_simulateContract W ?c] => destruct (on_simulateContract W c)
    end; cbn; rewrite Hwrite; cbn; rewrite Hdenied; reflexivity.
  - intros args dest proof Hstatus Hproof Hfailure.
    run. rewrite Hstatus. cbn. rewrite Hproof. cbn.
    destruct (Message.gasLimit (ClaimArgs.message args)
                >? BridgeService.erc721GasLimitThreshold cfg); cbn;
      destruct Hfailure as [Hsim | [Hsim Hwrite]];
      rewrite Hsim; cbn; try (rewrite Hwrite; cbn); rewrite Hdenied; reflexivity.
  - intros args account chain chainId answer Hwallet Hclient Hanswer Hnonempty Hfailure.
    assert (Htruthy : Js.truthy answer = true).
    { unfold Js.truthy. apply negb_true_iff. apply String.eqb_neq. exact Hnonempty. }
    run. rewrite Hwallet. cbn.
    destruct (on_isBridgePaused W) as [[|]|?]; cbn;
      rewrite Hclient; cbn; rewrite Hanswer; cbn; rewrite Htruthy; cbn;
      destruct Hfailure as [Hsim | [Hsim Hwrite]];
      rewrite Hsim; cbn; try (rewrite Hwrite; cbn); rewrite Hdenied; reflexivity.
Qed.

Lemma denied_signature_is_user_rejection_witness :
  let W := Sample.world Sample.vault Sample.nft (Rejected Sample.denied) NEW in
  Js.includes Sample.denied "denied transaction signature" = true /\
  outcome (bridge W Sample.service
             (Sample.bridge_args Sample.bridged_nft [7] (Some Sample.wallet)))
    = Thrown (UserRejectedRequestError (Foreign Sample.denied)) /\
  outcome (claim W Sample.service (Sample.claim_args 3000000))
    = Thrown (UserRejectedRequestError (Foreign Sample.denied)) /\
  outcome (approve (Sample.with_simulation W (Rejected Sample.denied))
             (Sample.approve_args [7]))
    = Thrown (UserRejectedRequestError (Foreign Sample.denied)).
Proof.
  intros W. split; [reflexivity|].
  split; [|split].
  - refine (proj1 (denied_signature_is_user_rejection W Sample.service Sample.denied
                     eq_refl)
              (Sample.bridge_args Sample.bridged_nft [7] (Some Sample.wallet))
              _ _ _ eq_refl eq_refl _ (fun _ => eq_refl)).
    discriminate.
  - refine (proj1 (proj2 (denied_signature_is_user_rejection W Sample.service
                            Sample.denied eq_refl))
              (Sample.claim_args 3000000) Sample.dest_bridge "0xproof"
              eq_refl eq_refl _).
    right. split; intros c; reflexivity.
  - refine (proj2 (proj2 (denied_signature_is_user_rejection
                            (Sample.with_simulation W (Rejected Sample.denied))
                            Sample.service Sample.denied eq_refl))
              (Sample.approve_args [7]) _ _ 31337 Sample.vault
              eq_refl eq_refl eq_refl _ _).
    + discriminate.
    + left. intros c. reflexivity.
Defined.

(** ** Empty token-id lists *)

(** C10: with an empty [tokenIds] list and a connected wallet, [approve]
    and, on a native token, [bridge] do not stop up front: they issue the
    approval query with an undefined token id.  On a bridged token [bridge]
    goes on to simulate [sendToken] with a descriptor that holds the empty
    list. *)
Theorem empty_tokenIds_reach_the_approval_query :
  forall (W : World) (cfg : BridgeService.t) (chainId : Z),
    on_getWalletClient W = Resolved chainId ->
    (forall (args : NFTApproveArgs.t) (account : Account.t) (chain : Chain.t),
        NFTApproveArgs.wallet args
          = Some {| WalletClient.account := Some account;
                    WalletClient.chain := Some chain |} ->
        NFTApproveArgs.tokenIds args = [] ->
        In (EvGetApproved (NFTApproveArgs.tokenAddress args) None chainId)
           (events (approve W args)))
    /\
    (forall (args : ERC721BridgeArgs.t) (account : Account.t) (chain : Chain.t)
            (info : CanonicalInfo.t),
        ERC721BridgeArgs.wallet args
          = Some {| WalletClient.account := Some account;
                    WalletClient.chain := Some chain |} ->
        ERC721BridgeArgs.tokenIds args = [] ->
        on_getCanonicalInfoForAddress W (ERC721BridgeArgs.token args)
            (ERC721BridgeArgs.srcChainId args) (ERC721BridgeArgs.destChainId args)
          = Resolved (Some info) ->
        (CanonicalInfo.address info = ERC721BridgeArgs.token args ->
           In (EvGetApproved (ERC721BridgeArgs.token args) None chainId)
              (events (bridge W cfg args))) /\
        (CanonicalInfo.address info <> ERC721BridgeArgs.token args ->
           exists c op,
             In (EvSimulate c) (events (bridge W cfg args)) /\
             ContractCall.call c = SendToken op /\
             NFTBridgeTransferOp.tokenIds op = [])).
Proof.
  intros W cfg chainId Hclient. split.
  - intros args account chain Hwallet Hempty.
    run. rewrite Hwallet, Hempty. cbn.
    destruct (on_isBridgePaused W) as [[|]|?]; cbn; rewrite Hclient; cbn;
      match goal with
      | |- context [on_getApproved W ?a ?t ?c] =>
          destruct (on_getApproved W a t c) as [answer|?]; cbn
      end;
      try (destruct (Js.truthy answer); cbn;
           repeat match goal with
           | |- context [on_simulateContract W ?c] =>
               destruct (on_simulateContract W c); cbn
           | |- context [on_writeContract W ?c] =>
               destruct (on_writeContract W c); cbn
           | |- context [if ?b then _ else _] => destruct b; cbn
           end);
      auto 8 with datatypes.
  - intros args account chain info Hwallet Hempty Hinfo. split.
    + intros Hnative.
      run. rewrite Hwallet, Hempty. cbn. rewrite Hinfo. cbn. rewrite Hnative.
      rewrite String.eqb_refl. cbn.
      destruct (on_isBridgePaused W) as [[|]|?]; cbn; rewrite Hclient; cbn;
        match goal with
        | |- context [on_getApproved W ?a ?t ?c] =>
            destruct (on_getApproved W a t c) as [answer|?]; cbn
        end;
        try (destruct (Js.truthy answer); cbn;
             repeat match goal with
             | |- context [on_simulateContract W ?c] =>
                 destruct (on_simulateContract W c); cbn
             | |- context [on_writeContract W ?c] =>
                 destruct (on_writeContract W c); cbn
             | |- context [if ?b then _ else _] => destruct b; cbn
             end);
        auto 8 with datatypes.
    + intros Hbridged. apply String.eqb_neq in Hbridged.
      run. rewrite Hwallet, Hempty. cbn. rewrite Hinfo. cbn. rewrite Hbridged. cbn.
      repeat match goal with
      | |- context [on_simulateContract W ?c] =>
          destruct (on_simulateContract W c); cbn
      | |- context [on_writeContract W ?c] =>
          destruct (on_writeContract W c); cbn
      | |- context [if ?b then _ else _] => destruct b; cbn
      end;
      eexists; eexists;
      (split; [right; left; reflexivity | split; reflexivity]).
Qed.

Lemma empty_tokenIds_reach_the_approval_query_witness :
  let W := Sample.world Sample.zero_address Sample.nft (Resolved Sample.tx) NEW in
  In (EvGetApproved Sample.nft None 31337)
     (events (approve W (Sample.approve_args []))) /\
  In (EvGetApproved Sample.nft None 31337)
     (events (bridge W Sample.service
                (Sample.bridge_args Sample.nft [] (Some Sample.wallet)))) /\
  exists c op,
    In (EvSimulate c)
       (events (bridge W Sample.service
                  (Sample.bridge_args Sample.bridged_nft [] (Some Sample.wallet)))) /\
    ContractCall.call c = SendToken op /\
    NFTBridgeTransferOp.tokenIds op = [].
Proof.
  intros W.
  destruct (empty_tokenIds_reach_the_approval_query W Sample.service 31337 eq_refl)
    as [Happrove Hbridge].
  split; [|split].
  - exact (Happrove (Sample.approve_args []) _ _ eq_refl eq_refl).
  - refine (proj1 (Hbridge (Sample.bridge_args Sample.nft [] (Some Sample.wallet))
                     _ _ _ eq_refl eq_refl eq_refl) eq_refl).
  - refine (proj2 (Hbridge (Sample.bridge_args Sample.bridged_nft [] (Some Sample.wallet))
                     _ _ _ eq_refl eq_refl eq_refl) _).
    discriminate.
Defined.

(** * Further properties of the class *)

(** Case analysis on one collaborator answer the goal still depends on. *)
Ltac oracle_step W :=
  match goal with
  | |- context [on_isBridgePaused W] =>
      destruct (on_isBridgePaused W) as [[|]|?]
  | |- context [on_getWalletClient W] =>
      destruct (on_getWalletClient W)
  | |- context [on_getApproved W ?a ?t ?c] =>
      destruct (on_getApproved W a t c)
  | |- context [on_getCanonicalInfoForAddress W ?a ?x ?y] =>
      destruct (on_getCanonicalInfoForAddress W a x y) as [[?|]|?]
  | |- context [on_estimateGas W ?a ?o ?v] =>
      destruct (on_estimateGas W a o v)
  | |- context [on_simulateContract W ?c] =>
      destruct (on_simulateContract W c)
  | |- context [on_writeContract W ?c] =>
      destruct (on_writeContract W c)
  | |- context [on_beforeClaiming W ?a] =>
      destruct (on_beforeClaiming W a) as [[[| |?] ?]|?]
  | |- context [on_encodedSignalProof W ?h ?x ?y] =>
      destruct (on_encodedSignalProof W h x y)
  | |- context [if ?b then _ else _] => destruct b
  end.

Ltac oracle_cases W := repeat first [progress cbn | oracle_step W].

(** The gas-limit expression of the descriptor, kept abstract in proofs that
    do not depend on it. *)
Ltac hide_gas_limit cfg args :=
  cbv zeta;
  generalize (if negb (ERC721BridgeArgs.isTokenAlreadyDeployed args)
              then BridgeService.noERC721TokenDeployedGasLimit cfg
              else if ERC721BridgeArgs.fee args >? 0
                   then BridgeService.noOwnerGasLimit cfg
                   else 0);
  intros gasLimit.

(** ** bridge *)

(** X1: on a bridged token (the canonical address differs from the token)
    [bridge] makes none of the calls of the approval check: no pause
    check, no wallet-client lookup, no [getApproved] query. *)
Theorem bridge_bridged_token_skips_approval :
  forall (W : World) (cfg : BridgeService.t) (args : ERC721BridgeArgs.t)
         (info : CanonicalInfo.t),
    on_getCanonicalInfoForAddress W (ERC721BridgeArgs.token args)
        (ERC721BridgeArgs.srcChainId args) (ERC721BridgeArgs.destChainId args)
      = Resolved (Some info) ->
    CanonicalInfo.address info <> ERC721BridgeArgs.token args ->
    filter is_approval_step (events (bridge W cfg args)) = [].
Proof.
  intros W cfg args info Hinfo Hbridged.
  apply String.eqb_neq in Hbridged.
  run.
  destruct (ERC721BridgeArgs.wallet args) as [[[account|] [chain|]]|]; cbn;
    try reflexivity; rewrite Hinfo; cbn; try rewrite Hbridged;
    oracle_cases W; reflexivity.
Qed.

Lemma bridge_bridged_token_skips_approval_witness :
  let W := Sample.world Sample.vault Sample.nft (Resolved Sample.tx) NEW in
  let args := Sample.bridge_args Sample.bridged_nft [7] (Some Sample.wallet) in
  filter is_approval_step (events (bridge W Sample.service args)) = [] /\
  outcome (bridge W Sample.service args) = Returned Sample.tx.
Proof.
  intros W args. split; [|reflexivity].
  refine (bridge_bridged_token_skips_approval W Sample.service args _ eq_refl _).
  discriminate.
Defined.

(** X2: with a connected wallet, on a bridged token, [bridge] simulates and
    then writes [sendToken] on the vault with the descriptor of
    [_prepareTransaction] and its fee as value, the write on the wallet's
    chain; it returns the hash the write produced. *)
Theorem bridge_returns_write_hash :
  forall (W : World) (cfg : BridgeService.t) (args : ERC721BridgeArgs.t)
         (account : Account.t) (chain : Chain.t) (info : CanonicalInfo.t),
    ERC721BridgeArgs.wallet args
      = Some {| WalletClient.account := Some account;
                WalletClient.chain := Some chain |} ->
    on_getCanonicalInfoForAddress W (ERC721BridgeArgs.token args)
        (ERC721BridgeArgs.srcChainId args) (ERC721BridgeArgs.destChainId args)
      = Resolved (Some info) ->
    CanonicalInfo.address info <> ERC721BridgeArgs.token args ->
    let vault := ERC721BridgeArgs.tokenVaultAddress args in
    let op := descriptor_of cfg args (Account.address account) in
    outcome (_prepareTransaction cfg args) = Returned (getContract vault, op) /\
    contract_calls (bridge W cfg args)
      = [EvSimulate (sendToken_call vault op None);
         EvWrite (sendToken_call vault op (Some (Chain.id chain)))] /\
    (forall h : Hash,
        on_writeContract W (sendToken_call vault op (Some (Chain.id chain)))
          = Resolved h ->
        outcome (bridge W cfg args) = Returned h).
Proof.
  intros W cfg args account chain info Hwallet Hinfo Hbridged vault op.
  apply String.eqb_neq in Hbridged.
  subst vault op. unfold descriptor_of, sendToken_call.
  split; [|split].
  - run. rewrite Hwallet. reflexivity.
  - run. rewrite Hwallet. cbn. rewrite Hinfo. cbn. rewrite Hbridged.
    oracle_cases W; reflexivity.
  - intros h Hwrite. revert Hwrite.
    run. rewrite Hwallet. cbn. rewrite Hinfo. cbn. rewrite Hbridged. cbn.
    intros Hwrite.
    match goal with
    | |- context [on_simulateContract W ?c] => destruct (on_simulateContract W c)
    end; cbn; rewrite Hwrite; reflexivity.
Qed.

Lemma bridge_returns_write_hash_witness :
  let W := Sample.world Sample.vault Sample.nft (Resolved Sample.tx) NEW in
  let args := Sample.bridge_args Sample.bridged_nft [7] (Some Sample.wallet) in
  let op := descriptor_of Sample.service args Sample.owner in
  contract_calls (bridge W Sample.service args)
    = [EvSimulate (sendToken_call Sample.vault op None);
       EvWrite (sendToken_call Sample.vault op (Some 31337))] /\
  outcome (bridge W Sample.service args) = Returned Sample.tx.
Proof.
  intros W args op.
  assert (Hbridged : Sample.nft <> Sample.bridged_nft) by discriminate.
  destruct (bridge_returns_write_hash W Sample.service args _ _ _
              eq_refl eq_refl Hbridged) as (_ & Hcalls & Hhash).
  split; [exact Hcalls | exact (Hhash Sample.tx eq_refl)].
Defined.

(** X3: a failed simulation is not fatal in [bridge]: whatever the
    simulation answers, the result and the submitted write are the same;
    a rejected simulation is only reported on the console. *)
Theorem bridge_ignores_simulation_result :
  forall (W : World) (cfg : BridgeService.t) (args : ERC721BridgeArgs.t)
         (f : ContractCall.t -> Reply unit),
    outcome (bridge (with_simulateContract W f) cfg args)
      = outcome (bridge W cfg args) /\
    writes (bridge (with_simulateContract W f) cfg args)
      = writes (bridge W cfg args) /\
    (forall c text,
        In (EvSimulate c) (events (bridge W cfg args)) ->
        on_simulateContract W c = Rejected text ->
        In (EvConsoleError (Foreign text)) (events (bridge W cfg args))).
Proof.
  intros W cfg args f. split; [|split].
  - run. hide_gas_limit cfg args.
    destruct (ERC721BridgeArgs.wallet args) as [[[account|] [chain|]]|]; cbn;
      try reflexivity;
      repeat first
        [ progress cbn
        | match goal with |- context [f ?c] => destruct (f c) end
        | oracle_step W ];
      reflexivity.
  - run. hide_gas_limit cfg args.
    destruct (ERC721BridgeArgs.wallet args) as [[[account|] [chain|]]|]; cbn;
      try reflexivity;
      repeat first
        [ progress cbn
        | match goal with |- context [f ?c] => destruct (f c) end
        | oracle_step W ];
      reflexivity.
  - run. hide_gas_limit cfg args.
    destruct (ERC721BridgeArgs.wallet args) as [[[account|] [chain|]]|]; cbn;
      try (intros c0 msg []);
      repeat first
        [ progress cbn
        | match goal with
          | |- context [on_simulateContract W ?c] =>
              destruct (on_simulateContract W c) eqn:Hsim
          end
        | oracle_step W ];
      intros c0 msg Hin Hrej;
      repeat (destruct Hin as [Hin|Hin];
              [ try discriminate Hin;
                injection Hin as Hc; subst c0;
                rewrite Hsim in Hrej;
                first [ discriminate Hrej
                      | injection Hrej as Ht; subst; cbn; auto 12 ]
              | ]);
      try contradiction.
Qed.

(** X4: when the resolver finds no canonical info, [bridge] fails with
    [SendERC721Error] caused by [NoCanonicalInfoFoundError], and neither
    simulates nor writes. *)
Theorem bridge_without_canonical_info :
  forall (W : World) (cfg : BridgeService.t) (args : ERC721BridgeArgs.t)
         (account : Account.t),
    wallet_account (ERC721BridgeArgs.wallet args) = Some account ->
    on_getCanonicalInfoForAddress W (ERC721BridgeArgs.token args)
        (ERC721BridgeArgs.srcChainId args) (ERC721BridgeArgs.destChainId args)
      = Resolved None ->
    outcome (bridge W cfg args)
      = Thrown (Raised SendERC721Error "failed to bridge ERC721 token"
                  (Some (Raised NoCanonicalInfoFoundError
                           "No canonical info found for token" None))) /\
    contract_calls (bridge W cfg args) = [].
Proof.
  intros W cfg args account Haccount Hinfo.
  run.
  destruct (ERC721BridgeArgs.wallet args) as [[[account'|] chain]|];
    try discriminate Haccount.
  cbn. rewrite Hinfo. split; reflexivity.
Qed.

Lemma bridge_without_canonical_info_witness :
  let W :=
    {| on_isBridgePaused := Resolved false;
       on_getWalletClient := Resolved 31337;
       on_getApproved := fun _ _ _ => Resolved Sample.zero_address;
       on_getCanonicalInfoForAddress := fun _ _ _ => Resolved None;
       on_estimateGas := fun _ _ _ => Resolved 21000;
       on_simulateContract := fun _ => Resolved tt;
       on_writeContract := fun _ => Resolved Sample.tx;
       on_beforeClaiming := fun _ => Resolved (NEW, Sample.dest_bridge);
       on_encodedSignalProof := fun _ _ _ => Resolved "0xproof" |} in
  let args := Sample.bridge_args Sample.nft [7] (Some Sample.wallet) in
  outcome (bridge W Sample.service args)
    = Thrown (Raised SendERC721Error "failed to bridge ERC721 token"
                (Some (Raised NoCanonicalInfoFoundError
                         "No canonical info found for token" None))) /\
  contract_calls (bridge W Sample.service args) = [].
Proof.
  intros W args.
  exact (bridge_without_canonical_info W Sample.service args _ eq_refl eq_refl).
Defined.

(** X5: without a wallet account, [bridge] and [estimateGas] fail with the
    plain [Error('Wallet is not connected')]; [bridge] has then called no
    collaborator at all and [estimateGas] only the pause check.  [approve]
    fails the same way, before any call, when the account or the chain is
    missing. *)
Theorem operations_need_a_connected_wallet :
  forall (W : World) (cfg : BridgeService.t),
    (forall args : ERC721BridgeArgs.t,
        wallet_account (ERC721BridgeArgs.wallet args) = None ->
        (outcome (bridge W cfg args)
           = Thrown (Raised Error "Wallet is not connected" None) /\
         events (bridge W cfg args) = []) /\
        (outcome (estimateGas W cfg args)
           = Thrown (Raised Error "Wallet is not connected" None) /\
         events (estimateGas W cfg args) = [EvIsBridgePaused])) /\
    (forall args : NFTApproveArgs.t,
        wallet_account (NFTApproveArgs.wallet args) = None \/
        wallet_chain (NFTApproveArgs.wallet args) = None ->
        outcome (approve W args)
          = Thrown (Raised Error "Wallet is not connected" None) /\
        events (approve W args) = []).
Proof.
  intros W cfg. split.
  - intros args Haccount. run.
    destruct (ERC721BridgeArgs.wallet args) as [[[account|] chain]|];
      try discriminate Haccount; cbn;
      destruct (on_isBridgePaused W) as [[|]|?]; repeat split.
  - intros args Hwallet. run.
    destruct (NFTApproveArgs.wallet args) as [[[account|] [chain|]]|];
      cbn in Hwallet; try (destruct Hwallet; discriminate); split; reflexivity.
Qed.

(** X6: with an account but no active chain, [bridge] still asks the
    resolver, then fails with [SendERC721Error] caused by
    [Error('Wallet is not connected')]; it neither simulates nor writes. *)
Theorem bridge_without_chain :
  forall (W : World) (cfg : BridgeService.t) (args : ERC721BridgeArgs.t)
         (account : Account.t) (info : CanonicalInfo.t),
    ERC721BridgeArgs.wallet args
      = Some {| WalletClient.account := Some account; WalletClient.chain := None |} ->
    on_getCanonicalInfoForAddress W (ERC721BridgeArgs.token args)
        (ERC721BridgeArgs.srcChainId args) (ERC721BridgeArgs.destChainId args)
      = Resolved (Some info) ->
    outcome (bridge W cfg args)
      = Thrown (Raised SendERC721Error "failed to bridge ERC721 token"
                  (Some (Raised Error "Wallet is not connected" None))) /\
    events (bridge W cfg args)
      = [EvGetCanonicalInfo (ERC721BridgeArgs.token args)
           (ERC721BridgeArgs.srcChainId args) (ERC721BridgeArgs.destChainId args)].
Proof.
  intros W cfg args account info Hwallet Hinfo.
  run. rewrite Hwallet. cbn. rewrite Hinfo. split; reflexivity.
Qed.

Lemma bridge_without_chain_witness :
  let W := Sample.world Sample.vault Sample.nft (Resolved Sample.tx) NEW in
  let wallet :=
    {| WalletClient.account := Some {| Account.address := Sample.owner |};
       WalletClient.chain := None |} in
  let args := Sample.bridge_args Sample.nft [7] (Some wallet) in
  outcome (bridge W Sample.service args)
    = Thrown (Raised SendERC721Error "failed to bridge ERC721 token"
                (Some (Raised Error "Wallet is not connected" None))) /\
  events (bridge W Sample.service args) = [EvGetCanonicalInfo Sample.nft 31337 167].
Proof.
  intros W wallet args.
  exact (bridge_without_chain W Sample.service args _ _ eq_refl eq_refl).
Defined.

Lemma operations_need_a_connected_wallet_witness :
  let W := Sample.world Sample.vault Sample.nft (Resolved Sample.tx) NEW in
  let args := Sample.bridge_args Sample.nft [7] None in
  outcome (bridge W Sample.service args)
    = Thrown (Raised Error "Wallet is not connected" None) /\
  events (bridge W Sample.service args) = [].
Proof.
  intros W args.
  exact (proj1 (proj1 (operations_need_a_connected_wallet W Sample.service)
                  args eq_refl)).
Defined.

(** ** Writes *)

Ltac oracle_cases_keeping_write W :=
  repeat first
    [ progress cbn
    | match goal with
      | |- context [on_writeContract W ?c] =>
          destruct (on_writeContract W c) eqn:Hwrite
      end
    | oracle_step W ].

Ltac one_write_success :=
  split;
  [ cbn; lia
  | intros h Hout;
    first [ discriminate Hout
          | injection Hout as <-; eexists; split; [reflexivity | eassumption]
          | eexists; eexists; split; [reflexivity | eassumption] ] ].

(** X7: [bridge] and [approve] never submit more than one write, and when
    they return a hash it is the answer of the one write they submitted.
    [claim] never submits more than one write either, and returns only
    after its one write was accepted. *)
Theorem at_most_one_write :
  forall (W : World) (cfg : BridgeService.t),
    (forall args : ERC721BridgeArgs.t,
        (length (writes (bridge W cfg args)) <= 1)%nat /\
        (forall h, outcome (bridge W cfg args) = Returned h ->
           exists c, writes (bridge W cfg args) = [EvWrite c] /\
                     on_writeContract W c = Resolved h)) /\
    (forall args : NFTApproveArgs.t,
        (length (writes (approve W args)) <= 1)%nat /\
        (forall h, outcome (approve W args) = Returned h ->
           exists c, writes (approve W args) = [EvWrite c] /\
                     on_writeContract W c = Resolved h)) /\
    (forall args : ClaimArgs.t,
        (length (writes (claim W cfg args)) <= 1)%nat /\
        (forall h, outcome (claim W cfg args) = Returned h ->
           exists c txHash, writes (claim W cfg args) = [EvWrite c] /\
                            on_writeContract W c = Resolved txHash)).
Proof.
  intros W cfg. split; [|split].
  - intros args. run. hide_gas_limit cfg args.
    destruct (ERC721BridgeArgs.wallet args) as [[[account|] [chain|]]|];
      oracle_cases_keeping_write W.
    all: solve [one_write_success].
  - intros args. run.
    destruct (NFTApproveArgs.wallet args) as [[[account|] [chain|]]|];
      oracle_cases_keeping_write W.
    all: solve [one_write_success].
  - intros args. run.
    destruct (Message.gasLimit (ClaimArgs.message args)
                >? BridgeService.erc721GasLimitThreshold cfg);
      oracle_cases_keeping_write W.
    all: solve [one_write_success].
Qed.

(** ** Error kinds *)



(** X9: an error of the write call whose text does not contain "denied
    transaction signature" is wrapped, with the error as cause, in
    [SendERC721Error] by [bridge], in [ProcessMessageError] by [claim] and
    in [ApproveError] by [approve]; [claim] and [approve] wrap an error of
    the simulation the same way. *)
Theorem other_errors_are_wrapped_with_cause :
  forall (W : World) (cfg : BridgeService.t) (text : string),
    Js.includes text "denied transaction signature" = false ->
    (forall (args : ERC721BridgeArgs.t) (account : Account.t) (chain : Chain.t)
            (info : CanonicalInfo.t),
        ERC721BridgeArgs.wallet args
          = Some {| WalletClient.account := Some account;
                    WalletClient.chain := Some chain |} ->
        on_getCanonicalInfoForAddress W (ERC721BridgeArgs.token args)
            (ERC721BridgeArgs.srcChainId args) (ERC721BridgeArgs.destChainId args)
          = Resolved (Some info) ->
        CanonicalInfo.address info <> ERC721BridgeArgs.token args ->
        (forall c, on_writeContract W c = Rejected text) ->
        outcome (bridge W cfg args)
          = Thrown (Raised SendERC721Error "failed to bridge ERC721 token"
                      (Some (Foreign text))))
    /\
    (forall (args : ClaimArgs.t) (dest : Address) (proof : string),
        on_beforeClaiming W args = Resolved (NEW, dest) ->
        on_encodedSignalProof W (ClaimArgs.msgHash args)
          (Message.srcChainId (ClaimArgs.message args))
          (Message.destChainId (ClaimArgs.message args)) = Resolved proof ->
        (forall c, on_simulateContract W c = Rejected text) \/
        ((forall c, on_simulateContract W c = Resolved tt) /\
         (forall c, on_writeContract W c = Rejected text)) ->
        outcome (claim W cfg args)
          = Thrown (Raised ProcessMessageError "failed to process message"
                      (Some (Foreign text))))
    /\
    (forall (args : NFTApproveArgs.t) (account : Account.t) (chain : Chain.t)
            (chainId : Z) (answer : Address),
        NFTApproveArgs.wallet args
          = Some {| WalletClient.account := Some account;
                    WalletClient.chain := Some chain |} ->
        on_getWalletClient W = Resolved chainId ->
        on_getApproved W (NFTApproveArgs.tokenAddress args)
            (nth_error (NFTApproveArgs.tokenIds args) 0) chainId
          = Resolved answer ->
        answer <> ""%string ->
        (forall c, on_simulateContract W c = Rejected text) \/
        ((forall c, on_simulateContract W c = Resolved tt) /\
         (forall c, on_writeContract W c = Rejected text)) ->
        outcome (approve W args)
          = Thrown (Raised ApproveError "failed to approve ERC721 token"
                      (Some (Foreign text)))).
Proof.
  intros W cfg text Hother. split; [|split].
  - intros args account chain info Hwallet Hinfo Hbridged Hwrite.
    apply String.eqb_neq in Hbridged.
    run. rewrite Hwallet. cbn. rewrite Hinfo. cbn. rewrite Hbridged. cbn.
    match goal with
    | |- context [on_simulateContract W ?c] => destruct (on_simulateContract W c)
    end; cbn; rewrite Hwrite; cbn; rewrite Hother; reflexivity.
  - intros args dest proof Hstatus Hproof Hfailure.
    run. rewrite Hstatus. cbn. rewrite Hproof. cbn.
    destruct (Message.gasLimit (ClaimArgs.message args)
                >? BridgeService.erc721GasLimitThreshold cfg); cbn;
      destruct Hfailure as [Hsim | [Hsim Hwrite]];
      rewrite Hsim; cbn; try (rewrite Hwrite; cbn); rewrite Hother; reflexivity.
  - intros args account chain chainId answer Hwallet Hclient Hanswer Hnonempty Hfailure.
    assert (Htruthy : Js.truthy answer = true).
    { unfold Js.truthy. apply negb_true_iff. apply String.eqb_neq. exact Hnonempty. }
    run. rewrite Hwallet. cbn.
    destruct (on_isBridgePaused W) as [[|]|?]; cbn;
      rewrite Hclient; cbn; rewrite Hanswer; cbn; rewrite Htruthy; cbn;
      destruct Hfailure as [Hsim | [Hsim Hwrite]];
      rewrite Hsim; cbn; try (rewrite Hwrite; cbn); rewrite Hother; reflexivity.
Qed.

Lemma other_errors_are_wrapped_with_cause_witness :
  let text := "ContractFunctionExecutionError: execution reverted" in
  let W := Sample.world Sample.vault Sample.nft (Rejected text) NEW in
  outcome (bridge W Sample.service
             (Sample.bridge_args Sample.bridged_nft [7] (Some Sample.wallet)))
    = Thrown (Raised SendERC721Error "failed to bridge ERC721 token"
                (Some (Foreign text))) /\
  outcome (claim W Sample.service (Sample.claim_args 3000000))
    = Thrown (Raised ProcessMessageError "failed to process message"
                (Some (Foreign text))) /\
  outcome (approve W (Sample.approve_args [7]))
    = Thrown (Raised ApproveError "failed to approve ERC721 token"
                (Some (Foreign text))).
Proof.
  intros text W.
  assert (Hbridged : Sample.nft <> Sample.bridged_nft) by discriminate.
  assert (Hnonempty : Sample.vault <> ""%string) by discriminate.
  destruct (other_errors_are_wrapped_with_cause W Sample.service text eq_refl)
    as (Hbridge & Hclaim & Happrove).
  split; [|split].
  - exact (Hbridge (Sample.bridge_args Sample.bridged_nft [7] (Some Sample.wallet))
             _ _ _ eq_refl eq_refl Hbridged (fun _ => eq_refl)).
  - exact (Hclaim (Sample.claim_args 3000000) Sample.dest_bridge "0xproof"
             eq_refl eq_refl
             (or_intror (conj (fun _ => eq_refl) (fun _ => eq_refl)))).
  - exact (Happrove (Sample.approve_args [7]) _ _ 31337 Sample.vault
             eq_refl eq_refl eq_refl Hnonempty
             (or_intror (conj (fun _ => eq_refl) (fun _ => eq_refl)))).
Defined.

(** X10: in [claim] and in [approve] a failed simulation stops the
    operation: when every simulation is rejected, no write is submitted. *)
Theorem failed_simulation_prevents_write :
  forall (W : World) (cfg : BridgeService.t) (text : string)
         (cargs : ClaimArgs.t) (aargs : NFTApproveArgs.t),
    (forall c, on_simulateContract W c = Rejected text) ->
    writes (claim W cfg cargs) = [] /\
    writes (approve W aargs) = [].
Proof.
  intros W cfg text cargs aargs Hsim. split.
  - run.
    destruct (on_beforeClaiming W cargs) as [[[| |?] ?]|?]; cbn; try reflexivity.
    destruct (on_encodedSignalProof W _ _ _); cbn; try reflexivity.
    destruct (_ >? _); cbn; rewrite Hsim; cbn;
      destruct (Js.includes _ _); reflexivity.
  - run.
    destruct (NFTApproveArgs.wallet aargs) as [[[account|] [chain|]]|]; cbn;
      try reflexivity.
    destruct (on_isBridgePaused W) as [[|]|?]; cbn;
      destruct (on_getWalletClient W); cbn; try reflexivity;
      destruct (on_getApproved W _ _ _); cbn; try reflexivity;
      destruct (Js.truthy _); cbn; try reflexivity;
      rewrite Hsim; cbn; destruct (Js.includes _ _); reflexivity.
Qed.

Lemma failed_simulation_prevents_write_witness :
  let W := Sample.with_simulation
             (Sample.world Sample.vault Sample.nft (Resolved Sample.tx) NEW)
             (Rejected "execution reverted") in
  writes (claim W Sample.service (Sample.claim_args 3000000)) = [] /\
  writes (approve W (Sample.approve_args [7])) = [] /\
  outcome (bridge W Sample.service
             (Sample.bridge_args Sample.bridged_nft [7] (Some Sample.wallet)))
    = Returned Sample.tx.
Proof.
  intros W.
  destruct (failed_simulation_prevents_write W Sample.service "execution reverted"
              (Sample.claim_args 3000000) (Sample.approve_args [7])
              (fun _ => eq_refl)) as [Hclaim Happrove].
  split; [exact Hclaim|]. split; [exact Happrove | reflexivity].
Defined.

(** ** Failures before the contract calls *)

(** X11: [claim] does not wrap the failures that precede its [try] block.
    A rejected pre-claim check reaches the caller unchanged and nothing else
    is called; a rejected proof request reaches the caller unchanged and
    nothing is simulated or written. *)
Theorem claim_early_failures_are_not_wrapped :
  forall (W : World) (cfg : BridgeService.t) (args : ClaimArgs.t) (text : string),
    (on_beforeClaiming W args = Rejected text ->
       outcome (claim W cfg args) = Thrown (Foreign text) /\
       events (claim W cfg args) = [EvBeforeClaiming args]) /\
    (forall dest,
       on_beforeClaiming W args = Resolved (NEW, dest) ->
       on_encodedSignalProof W (ClaimArgs.msgHash args)
         (Message.srcChainId (ClaimArgs.message args))
         (Message.destChainId (ClaimArgs.message args)) = Rejected text ->
       outcome (claim W cfg args) = Thrown (Foreign text) /\
       contract_calls (claim W cfg args) = []).
Proof.
  intros W cfg args text. split.
  - intros Hcheck. run. rewrite Hcheck. split; reflexivity.
  - intros dest Hcheck Hproof. run. rewrite Hcheck. cbn. rewrite Hproof.
    split; reflexivity.
Qed.

Lemma claim_early_failures_are_not_wrapped_witness :
  let W :=
    {| on_isBridgePaused := Resolved false;
       on_getWalletClient := Resolved 31337;
       on_getApproved := fun _ _ _ => Resolved Sample.zero_address;
       on_getCanonicalInfoForAddress := fun _ _ _ => Resolved None;
       on_estimateGas := fun _ _ _ => Resolved 21000;
       on_simulateContract := fun _ => Resolved tt;
       on_writeContract := fun _ => Resolved Sample.tx;
       on_beforeClaiming := fun _ => Resolved (NEW, Sample.dest_bridge);
       on_encodedSignalProof := fun _ _ _ => Rejected "Error: block not found" |} in
  outcome (claim W Sample.service (Sample.claim_args 3000000))
    = Thrown (Foreign "Error: block not found") /\
  contract_calls (claim W Sample.service (Sample.claim_args 3000000)) = [].
Proof.
  intros W.
  exact (proj2 (claim_early_failures_are_not_wrapped W Sample.service
                  (Sample.claim_args 3000000) "Error: block not found")
           Sample.dest_bridge eq_refl eq_refl).
Defined.

(** X12: [approve] does not wrap a failure of the approval query: when the
    wallet-client lookup or the [getApproved] read is rejected, the error
    reaches the caller unchanged, not as [ApproveError], and nothing is
    simulated or written. *)
Theorem approve_query_failure_is_not_wrapped :
  forall (W : World) (args : NFTApproveArgs.t) (account : Account.t)
         (chain : Chain.t) (text : string),
    NFTApproveArgs.wallet args
      = Some {| WalletClient.account := Some account;
                WalletClient.chain := Some chain |} ->
    on_getWalletClient W = Rejected text \/
    (exists chainId,
        on_getWalletClient W = Resolved chainId /\
        on_getApproved W (NFTApproveArgs.tokenAddress args)
          (nth_error (NFTApproveArgs.tokenIds args) 0) chainId = Rejected text) ->
    outcome (approve W args) = Thrown (Foreign text) /\
    contract_calls (approve W args) = [].
Proof.
  intros W args account chain text Hwallet Hquery.
  run. rewrite Hwallet. cbn.
  destruct (on_isBridgePaused W) as [[|]|?]; cbn;
    destruct Hquery as [Hclient | (chainId & Hclient & Hread)];
    rewrite Hclient; cbn; try rewrite Hread; split; reflexivity.
Qed.

Lemma approve_query_failure_is_not_wrapped_witness :
  let W := Sample.with_wallet_client
             (Sample.world Sample.vault Sample.nft (Resolved Sample.tx) NEW)
             (Rejected "ConnectorNotFoundError: Connector not found") in
  outcome (approve W (Sample.approve_args [7]))
    = Thrown (Foreign "ConnectorNotFoundError: Connector not found") /\
  contract_calls (approve W (Sample.approve_args [7])) = [].
Proof.
  intros W.
  exact (approve_query_failure_is_not_wrapped W (Sample.approve_args [7]) _ _
           "ConnectorNotFoundError: Connector not found" eq_refl
           (or_introl eq_refl)).
Defined.

(** ** approve *)

(** X13: with a connected wallet and an approval getter that answers an
    address other than the spender, [approve] simulates and then writes
    [approve(spender, tokenIds[0])] on the token contract, both on the
    chain of the wallet passed in the arguments, and returns the hash of
    the write. *)
Theorem approve_returns_write_hash :
  forall (W : World) (args : NFTApproveArgs.t) (account : Account.t)
         (chain : Chain.t) (chainId : Z) (answer : Address) (h : Hash),
    NFTApproveArgs.wallet args
      = Some {| WalletClient.account := Some account;
                WalletClient.chain := Some chain |} ->
    on_getWalletClient W = Resolved chainId ->
    on_getApproved W (NFTApproveArgs.tokenAddress args)
        (nth_error (NFTApproveArgs.tokenIds args) 0) chainId
      = Resolved answer ->
    answer <> ""%string ->
    vault_is_authorized answer (NFTApproveArgs.spenderAddress args) = false ->
    let call := approve_call (NFTApproveArgs.tokenAddress args)
                  (NFTApproveArgs.spenderAddress args)
                  (nth_error (NFTApproveArgs.tokenIds args) 0) (Chain.id chain) in
    on_simulateContract W call = Resolved tt ->
    on_writeContract W call = Resolved h ->
    outcome (approve W args) = Returned h /\
    contract_calls (approve W args) = [EvSimulate call; EvWrite call].
Proof.
  intros W args account chain chainId answer h
         Hwallet Hclient Hanswer Hnonempty Hother call Hsim Hwrite.
  assert (Htruthy : Js.truthy answer = true).
  { unfold Js.truthy. apply negb_true_iff. apply String.eqb_neq. exact Hnonempty. }
  subst call. unfold approve_call in Hsim, Hwrite |- *.
  run. rewrite Hwallet. cbn.
  destruct (on_isBridgePaused W) as [[|]|?]; cbn;
    rewrite Hclient; cbn; rewrite Hanswer; cbn; rewrite Htruthy; cbn;
    rewrite Hsim; cbn; rewrite Hwrite; split; reflexivity.
Qed.

Lemma approve_returns_write_hash_witness :
  let W := Sample.world Sample.zero_address Sample.nft (Resolved Sample.tx) NEW in
  let call := approve_call Sample.nft Sample.vault (Some 7) 31337 in
  outcome (approve W (Sample.approve_args [7])) = Returned Sample.tx /\
  contract_calls (approve W (Sample.approve_args [7])) = [EvSimulate call; EvWrite call].
Proof.
  intros W call.
  refine (approve_returns_write_hash W (Sample.approve_args [7]) _ _ 31337
            Sample.zero_address Sample.tx eq_refl eq_refl eq_refl _ eq_refl
            eq_refl eq_refl).
  discriminate.
Defined.

(** ** requiresApproval *)

(** X14: [requiresApproval] reads neither [spenderAddress] nor [chainId] of
    its arguments: the [getApproved] query goes to the chain of the wallet
    client, and two calls that agree on token address and token id run
    identically. *)
Theorem requiresApproval_ignores_spender_and_chain :
  forall (W : World) (a b : RequireApprovalArgs.t) (clientChain : Z),
    RequireApprovalArgs.tokenAddress a = RequireApprovalArgs.tokenAddress b ->
    RequireApprovalArgs.tokenId a = RequireApprovalArgs.tokenId b ->
    on_getWalletClient W = Resolved clientChain ->
    exec (requiresApproval W a) = exec (requiresApproval W b) /\
    events (requiresApproval W a)
      = [EvIsBridgePaused; EvGetWalletClient;
         EvGetApproved (RequireApprovalArgs.tokenAddress a)
           (RequireApprovalArgs.tokenId a) clientChain].
Proof.
  intros W a b clientChain Htoken Hid Hclient.
  run. rewrite Htoken, Hid.
  destruct (on_isBridgePaused W) as [[|]|?]; cbn; rewrite Hclient; cbn;
    destruct (on_getApproved W _ _ _); split; reflexivity.
Qed.

Lemma requiresApproval_ignores_spender_and_chain_witness :
  let W := Sample.world Sample.zero_address Sample.nft (Resolved Sample.tx) NEW in
  let other :=
    {| RequireApprovalArgs.tokenAddress := Sample.nft;
       RequireApprovalArgs.spenderAddress := Sample.owner;
       RequireApprovalArgs.tokenId := Some 7;
       RequireApprovalArgs.chainId := 167 |} in
  exec (requiresApproval W Sample.approval_args) = exec (requiresApproval W other) /\
  events (requiresApproval W Sample.approval_args)
    = [EvIsBridgePaused; EvGetWalletClient; EvGetApproved Sample.nft (Some 7) 31337].
Proof.
  intros W other.
  exact (requiresApproval_ignores_spender_and_chain W Sample.approval_args other
           31337 eq_refl eq_refl eq_refl).
Defined.

(** ** estimateGas *)

(** X15: [estimateGas] is read-only: it never simulates or writes.  With a
    wallet account it asks the vault contract for the gas of [sendToken]
    with the descriptor of [_prepareTransaction] and the fee as value, and
    returns the estimate, or the estimation error unchanged. *)
Theorem estimateGas_is_read_only :
  forall (W : World) (cfg : BridgeService.t) (args : ERC721BridgeArgs.t),
    contract_calls (estimateGas W cfg args) = [] /\
    (forall account,
        wallet_account (ERC721BridgeArgs.wallet args) = Some account ->
        let vault := ERC721BridgeArgs.tokenVaultAddress args in
        let op := descriptor_of cfg args (Account.address account) in
        events (estimateGas W cfg args)
          = [EvIsBridgePaused; EvEstimateGas vault op (ERC721BridgeArgs.fee args)] /\
        outcome (estimateGas W cfg args)
          = match on_estimateGas W vault op (ERC721BridgeArgs.fee args) with
            | Resolved gas => Returned gas
            | Rejected text => Thrown (Foreign text)
            end).
Proof.
  intros W cfg args. split.
  - run.
    destruct (ERC721BridgeArgs.wallet args) as [[[account|] chain]|];
      oracle_cases W; reflexivity.
  - intros account Haccount vault op. subst vault op. unfold descriptor_of.
    run.
    destruct (ERC721BridgeArgs.wallet args) as [[[account'|] chain]|];
      try discriminate Haccount.
    cbn in Haccount. injection Haccount as ->.
    destruct (on_isBridgePaused W) as [[|]|?]; cbn;
      match goal with
      | |- context [on_estimateGas W ?a ?o ?v] => destruct (on_estimateGas W a o v)
      end; split; reflexivity.
Qed.

Lemma estimateGas_is_read_only_witness :
  let W := Sample.world Sample.vault Sample.nft (Resolved Sample.tx) NEW in
  let args := Sample.bridge_args Sample.nft [7] (Some Sample.wallet) in
  events (estimateGas W Sample.service args)
    = [EvIsBridgePaused;
       EvEstimateGas Sample.vault (descriptor_of Sample.service args Sample.owner) 0] /\
  outcome (estimateGas W Sample.service args) = Returned 21000.
Proof.
  intros W args.
  exact (proj2 (estimateGas_is_read_only W Sample.service args) _ eq_refl).
Defined.

(** ** The pause check *)

(** X16: no operation of the class is held back by a paused bridge: the
    result and the calls of [bridge], [approve] and [claim] are the same
    whatever the pause-status checker answers. *)
Theorem operations_do_not_depend_on_pause_status :
  forall (W : World) (cfg : BridgeService.t) (paused paused' : Reply bool)
         (bargs : ERC721BridgeArgs.t) (aargs : NFTApproveArgs.t) (cargs : ClaimArgs.t),
    (outcome (bridge (with_paused W paused) cfg bargs)
       = outcome (bridge (with_paused W paused') cfg bargs) /\
     events (bridge (with_paused W paused) cfg bargs)
       = events (bridge (with_paused W paused') cfg bargs)) /\
    (outcome (approve (with_paused W paused) aargs)
       = outcome (approve (with_paused W paused') aargs) /\
     events (approve (with_paused W paused) aargs)
       = events (approve (with_paused W paused') aargs)) /\
    (outcome (claim (with_paused W paused) cfg cargs)
       = outcome (claim (with_paused W paused') cfg cargs) /\
     events (claim (with_paused W paused) cfg cargs)
       = events (claim (with_paused W paused') cfg cargs)).
Proof.
  intros W cfg paused paused' bargs aargs cargs.
  split; [|split].
  - run. hide_gas_limit cfg bargs.
    destruct (ERC721BridgeArgs.wallet bargs) as [[[account|] [chain|]]|];
      destruct paused as [[|]|?], paused' as [[|]|?];
      oracle_cases W; split; reflexivity.
  - run.
    destruct (NFTApproveArgs.wallet aargs) as [[[account|] [chain|]]|];
      destruct paused as [[|]|?], paused' as [[|]|?];
      oracle_cases W; split; reflexivity.
  - split; reflexivity.
Qed.

(** * Properties of the genesis configuration *)

Module ConfigFacts.

Import Config.

Example chain_167000_bridge :
  getConstantAddress (Num 167000) (Num 1)
    = inr "0x1670000000000000000000000000000000000001".
Proof. reflexivity. Qed.

Example chain_167000_bridged_erc721_impl :
  getConstantAddress (Str "0167000") (Num 10097)
    = inr "0x0167000000000000000000000000000000010097".
Proof. reflexivity. Qed.

Example prefix_too_long :
  getConstantAddress (Str "0123456789012345678901234567890123456789") (Num 1)
    = inl (InvalidCountValue (-1)).
Proof. reflexivity. Qed.

(** *** Strings *)

Lemma length_append (a b : string) :
  String.length (a ++ b) = (String.length a + String.length b)%nat.
Proof. induction a as [|c a IH]; cbn; [reflexivity | now rewrite IH]. Qed.

Lemma length_zeros (n : nat) : String.length (zeros n) = n.
Proof. induction n as [|n IH]; cbn; [reflexivity | now rewrite IH]. Qed.

Lemma append_cancel_l (p a b : string) : (p ++ a = p ++ b)%string -> a = b.
Proof.
  induction p as [|c p IH]; cbn; intros H; [exact H|].
  injection H as H. apply IH. exact H.
Qed.

Lemma strip_zeros_padding (n : nat) (s : string) :
  strip_zeros (zeros n ++ s) = strip_zeros s.
Proof. induction n as [|n IH]; cbn; [reflexivity | exact IH]. Qed.

(** *** Decimal digits of a number *)

Lemma nzhead_no_leading_zero (d d' : Decimal.uint) : Decimal.nzhead d <> Decimal.D0 d'.
Proof. induction d; cbn; try discriminate. exact IHd. Qed.

Lemma to_uint_no_leading_zero (p : positive) (d : Decimal.uint) :
  Pos.to_uint p <> Decimal.D0 d.
Proof.
  intros H.
  pose proof (DecimalPos.Unsigned.to_of (Pos.to_uint p)) as Hnorm.
  rewrite DecimalPos.Unsigned.of_to in Hnorm. cbn in Hnorm.
  rewrite H in Hnorm. unfold Decimal.unorm in Hnorm. cbn in Hnorm.
  destruct (Decimal.nzhead d) eqn:Hhead.
  - injection Hnorm as Hd. subst d.
    apply (DecimalPos.Unsigned.to_uint_nonzero p). exact H.
  - injection Hnorm as Hd. subst d.
    revert Hhead. apply nzhead_no_leading_zero.
  - discriminate Hnorm.
  - discriminate Hnorm.
  - discriminate Hnorm.
  - discriminate Hnorm.
  - discriminate Hnorm.
  - discriminate Hnorm.
  - discriminate Hnorm.
  - discriminate Hnorm.
  - discriminate Hnorm.
Qed.

(** A positive number prints with a first digit that is not ['0']. *)
Lemma positive_first_digit (n : Z) :
  0 < n ->
  exists c rest, String_ (Num n) = String c rest /\ c <> "0"%char.
Proof.
  intros Hn. destruct n as [|p|p]; try lia.
  cbn. unfold NilZero.string_of_uint.
  pose proof (to_uint_no_leading_zero p) as Hzero.
  pose proof (DecimalPos.Unsigned.to_uint_nonnil p) as Hnil.
  destruct (Pos.to_uint p) as [|d|d|d|d|d|d|d|d|d|d]; cbn;
    try (eexists; eexists; split; [reflexivity | discriminate]).
  - contradiction.
  - exfalso. apply (Hzero d). reflexivity.
Qed.

Lemma strip_zeros_positive (n : Z) :
  0 < n -> strip_zeros (String_ (Num n)) = String_ (Num n).
Proof.
  intros Hn. destruct (positive_first_digit n Hn) as (c & rest & -> & Hc).
  cbn. destruct c as [[] [] [] [] [] [] [] []]; try reflexivity.
  contradiction Hc. reflexivity.
Qed.

Lemma String_Num_inj (n m : Z) : String_ (Num n) = String_ (Num m) -> n = m.
Proof.
  cbn. intros H.
  assert (Hint : forall z, Z.to_int z <> Decimal.Pos Decimal.Nil /\
                           Z.to_int z <> Decimal.Neg Decimal.Nil).
  { intros [|p|p]; cbn; split; try discriminate;
      intros Hp; injection Hp as Hp;
      revert Hp; apply DecimalPos.Unsigned.to_uint_nonnil. }
  apply DecimalZ.to_int_inj.
  pose proof (NilZero.isi (Z.to_int n) (proj1 (Hint n)) (proj2 (Hint n))) as Hn.
  pose proof (NilZero.isi (Z.to_int m) (proj1 (Hint m)) (proj2 (Hint m))) as Hm.
  rewrite H in Hn. rewrite Hn in Hm. injection Hm as Hm. exact Hm.
Qed.

Lemma getConstantAddress_fits (prefix suffix : Value) :
  (String.length (String_ prefix) + String.length (String_ suffix) <= 40)%nat ->
  getConstantAddress prefix suffix
    = inr ("0x" ++ String_ prefix
           ++ zeros (40 - String.length (String_ prefix) - String.length (String_ suffix))
           ++ String_ suffix).
Proof.
  intros Hfits. unfold getConstantAddress, repeat_zero, ADDRESS_LENGTH.
  destruct (Z.ltb_spec (40 - Z.of_nat (String.length (String_ prefix))
                        - Z.of_nat (String.length (String_ suffix))) 0) as [Hneg|Hpos];
    [exfalso; lia|].
  replace (Z.to_nat (40 - Z.of_nat (String.length (String_ prefix))
                     - Z.of_nat (String.length (String_ suffix))))
    with (40 - String.length (String_ prefix) - String.length (String_ suffix))%nat
    by lia.
  reflexivity.
Qed.

(** *** getConstantAddress *)

(** X17: when the digits of prefix and suffix together take at most 40
    characters, [getConstantAddress] returns a string of 42 characters:
    ["0x"], the prefix, zeros, the suffix.  When they take more, the
    negative repeat count makes it throw a [RangeError]. *)
Theorem getConstantAddress_shape :
  forall (prefix suffix : Value),
    let used := (String.length (String_ prefix) + String.length (String_ suffix))%nat in
    ((used <= 40)%nat ->
       exists address,
         getConstantAddress prefix suffix = inr address /\
         String.length address = 42%nat /\
         address = "0x" ++ String_ prefix ++ zeros (40 - used) ++ String_ suffix) /\
    ((40 < used)%nat ->
       getConstantAddress prefix suffix
         = inl (InvalidCountValue (40 - Z.of_nat used))).
Proof.
  intros prefix suffix used. subst used. split.
  - intros Hfits. eexists. split; [apply getConstantAddress_fits; exact Hfits|].
    split.
    + cbn [String.length append]. rewrite !length_append, length_zeros. lia.
    + replace (40 - (String.length (String_ prefix) + String.length (String_ suffix)))%nat
        with (40 - String.length (String_ prefix) - String.length (String_ suffix))%nat
        by lia.
      reflexivity.
  - intros Hlong. unfold getConstantAddress, repeat_zero, ADDRESS_LENGTH.
    destruct (Z.ltb_spec (40 - Z.of_nat (String.length (String_ prefix))
                          - Z.of_nat (String.length (String_ suffix))) 0) as [Hneg|Hpos];
      [|exfalso; lia].
    replace (40 - Z.of_nat (String.length (String_ prefix) + String.length (String_ suffix)))
      with (40 - Z.of_nat (String.length (String_ prefix))
            - Z.of_nat (String.length (String_ suffix))) by lia.
    reflexivity.
Qed.

Lemma getConstantAddress_shape_witness :
  (exists address,
      getConstantAddress (Num 167000) (Num 10001) = inr address /\
      String.length address = 42%nat /\
      address = "0x1670000000000000000000000000000000010001") /\
  getConstantAddress (Str "0123456789012345678901234567890123456789") (Num 10001)
    = inl (InvalidCountValue (-5)).
Proof.
  split.
  - exact (proj1 (getConstantAddress_shape (Num 167000) (Num 10001))
             ltac:(vm_compute; repeat constructor)).
  - exact (proj2 (getConstantAddress_shape
                    (Str "0123456789012345678901234567890123456789") (Num 10001))
             ltac:(vm_compute; repeat constructor)).
Defined.

Lemma getConstantAddress_inr (prefix suffix : Value) (address : string) :
  getConstantAddress prefix suffix = inr address ->
  exists k, address = "0x" ++ String_ prefix ++ zeros k ++ String_ suffix.
Proof.
  unfold getConstantAddress, repeat_zero.
  destruct (_ <? 0); intros H; [discriminate|].
  injection H as <-. eexists. reflexivity.
Qed.

Lemma padded_suffix_inj (k1 k2 : nat) (s1 s2 : Z) :
  0 <= s1 -> 0 <= s2 ->
  zeros k1 ++ String_ (Num s1) = zeros k2 ++ String_ (Num s2) ->
  s1 = s2.
Proof.
  intros H1 H2 Heq.
  apply (f_equal strip_zeros) in Heq. rewrite !strip_zeros_padding in Heq.
  assert (Hzero : strip_zeros (String_ (Num 0)) = "") by reflexivity.
  assert (Hnonempty : forall n, 0 < n -> strip_zeros (String_ (Num n)) <> "").
  { intros n Hn. rewrite strip_zeros_positive by exact Hn.
    destruct (positive_first_digit n Hn) as (c & rest & -> & _). discriminate. }
  destruct (Z.eq_dec s1 0) as [->|Hs1], (Z.eq_dec s2 0) as [->|Hs2].
  - reflexivity.
  - rewrite Hzero in Heq. symmetry in Heq. exfalso. revert Heq. apply Hnonempty. lia.
  - rewrite Hzero in Heq. exfalso. revert Heq. apply Hnonempty. lia.
  - rewrite !strip_zeros_positive in Heq by lia. apply String_Num_inj. exact Heq.
Qed.

Lemma getConstantAddress_suffix_inj :
  forall (prefix : Value) (s1 s2 : Z) (address : string),
    0 <= s1 -> 0 <= s2 ->
    getConstantAddress prefix (Num s1) = inr address ->
    getConstantAddress prefix (Num s2) = inr address ->
    s1 = s2.
Proof.
  intros prefix s1 s2 address H1 H2 Ha Hb.
  apply getConstantAddress_inr in Ha, Hb.
  destruct Ha as [k1 ->], Hb as [k2 Hb].
  apply (append_cancel_l "0x") in Hb. apply append_cancel_l in Hb.
  eapply padded_suffix_inj; eassumption.
Qed.

(** X18: under one prefix, two different non-negative suffixes never give
    the same address. *)
Theorem different_suffixes_give_different_addresses :
  forall (prefix : Value) (s1 s2 : Z) (a1 a2 : string),
    0 <= s1 -> 0 <= s2 -> s1 <> s2 ->
    getConstantAddress prefix (Num s1) = inr a1 ->
    getConstantAddress prefix (Num s2) = inr a2 ->
    a1 <> a2.
Proof.
  intros prefix s1 s2 a1 a2 H1 H2 Hdiff Ha Hb Heq. subst a2.
  apply Hdiff. exact (getConstantAddress_suffix_inj prefix s1 s2 a1 H1 H2 Ha Hb).
Qed.

Lemma different_suffixes_give_different_addresses_witness :
  "0x1670000000000000000000000000000000000010"
    <> "0x1670000000000000000000000000000000000100".
Proof.
  refine (different_suffixes_give_different_addresses (Num 167000) 10 100 _ _
            _ _ _ eq_refl eq_refl); discriminate.
Defined.

(** X19: for a positive chain id, an address derived with the
    implementation prefix [`0${chainId}`] differs from every address
    derived with the proxy prefix [chainId], whatever the suffixes. *)
Theorem implementation_and_proxy_addresses_differ :
  forall (chainId : Z) (s1 s2 : Value) (impl proxy : string),
    0 < chainId ->
    getConstantAddress (Str ("0" ++ String_ (Num chainId))) s1 = inr impl ->
    getConstantAddress (Num chainId) s2 = inr proxy ->
    impl <> proxy.
Proof.
  intros chainId s1 s2 impl proxy Hchain Ha Hb.
  apply getConstantAddress_inr in Ha, Hb.
  destruct Ha as [k1 ->], Hb as [k2 ->].
  destruct (positive_first_digit chainId Hchain) as (c & rest & Hdigits & Hc).
  rewrite Hdigits. cbn. intros Heq.
  injection Heq as Heq _. apply Hc. subst c. reflexivity.
Qed.

Lemma implementation_and_proxy_addresses_differ_witness :
  "0x0167000000000000000000000000000000000001"
    <> "0x1670000000000000000000000000000000000001".
Proof.
  refine (implementation_and_proxy_addresses_differ 167000 (Num 1) (Num 1) _ _
            _ eq_refl eq_refl).
  reflexivity.
Defined.

Lemma address_suffix_inj (prefix : Value) (k1 k2 : nat) (s1 s2 : Z) :
  "0x" ++ String_ prefix ++ zeros k1 ++ String_ (Num s1)
    = "0x" ++ String_ prefix ++ zeros k2 ++ String_ (Num s2) ->
  0 <= s1 -> 0 <= s2 -> s1 = s2.
Proof.
  intros Heq H1 H2.
  apply (append_cancel_l "0x") in Heq. apply append_cancel_l in Heq.
  eapply padded_suffix_inj; eassumption.
Qed.

Lemma address_impl_proxy (chainId : Z) (k1 k2 : nat) (s1 s2 : Value) :
  0 < chainId ->
  "0x" ++ String_ (Str ("0" ++ String_ (Num chainId))) ++ zeros k1 ++ String_ s1
    <> "0x" ++ String_ (Num chainId) ++ zeros k2 ++ String_ s2.
Proof.
  intros Hchain.
  destruct (positive_first_digit chainId Hchain) as (c & rest & Hdigits & Hc).
  rewrite Hdigits. cbn. intros Heq.
  injection Heq as Heq _. apply Hc. subst c. reflexivity.
Qed.

Lemma impl_fits (chainId : Z) (suffix : Value) :
  (String.length (String_ (Num chainId)) <= 34)%nat ->
  (String.length (String_ suffix) <= 5)%nat ->
  (String.length (String_ (Str ("0" ++ String_ (Num chainId))))
   + String.length (String_ suffix) <= 40)%nat.
Proof.
  intros Hchain Hsuffix. cbn [String_] in *. rewrite length_append.
  cbn [String.length]. lia.
Qed.

Lemma proxy_fits (chainId : Z) (suffix : Value) :
  (String.length (String_ (Num chainId)) <= 34)%nat ->
  (String.length (String_ suffix) <= 5)%nat ->
  (String.length (String_ (Num chainId)) + String.length (String_ suffix) <= 40)%nat.
Proof. lia. Qed.

(** *** contractAddresses *)

(** X20: for a positive chain id of at most 34 digits, [contractAddresses]
    returns its nineteen entries under the keys of the object literal, every
    address has 42 characters, and no two contracts share an address. *)
Theorem contractAddresses_well_formed :
  forall chainId : Z,
    0 < chainId ->
    (String.length (String_ (Num chainId)) <= 34)%nat ->
    exists table,
      contractAddresses chainId = inr table /\
      map fst table = map (fun c => fst (fst c)) (contractAddresses_calls chainId) /\
      Forall (fun entry => String.length (snd entry) = 42%nat) table /\
      NoDup (map snd table).
Proof.
  intros chainId Hchain Hlen.
  unfold contractAddresses, contractAddresses_calls. cbv zeta. cbn [evaluate].
  rewrite !getConstantAddress_fits
    by (first [apply impl_fits | apply proxy_fits];
        [exact Hlen | vm_compute; repeat constructor]).
  cbv beta iota.
  eexists. split; [reflexivity|]. split; [reflexivity|]. split.
  - repeat (apply Forall_cons; [cbn [snd]|]); [.. | apply Forall_nil];
      match goal with
      | |- String.length ("0x" ++ String_ ?p ++ zeros ?k ++ String_ ?s) = _ =>
          assert (Hfits : (String.length (String_ p) + String.length (String_ s) <= 40)%nat)
            by (first [apply impl_fits | apply proxy_fits];
                [exact Hlen | vm_compute; repeat constructor]);
          rewrite !length_append, length_zeros;
          change (String.length "0x") with 2%nat; lia
      end.
  - cbn [map snd].
    repeat (apply NoDup_cons; [cbn [In]; intros Hin |]); [.. | apply NoDup_nil].
    all: repeat (destruct Hin as [Hin | Hin];
                 [ first [ apply address_suffix_inj in Hin; [discriminate Hin | lia | lia]
                         | exact (address_impl_proxy _ _ _ _ _ Hchain Hin)
                         | exact (address_impl_proxy _ _ _ _ _ Hchain (eq_sym Hin)) ]
                 | ]);
         contradiction.
Qed.

Lemma contractAddresses_well_formed_witness :
  exists table,
    contractAddresses 167000 = inr table /\
    map fst table = map (fun c => fst (fst c)) (contractAddresses_calls 167000) /\
    Forall (fun entry => String.length (snd entry) = 42%nat) table /\
    NoDup (map snd table).
Proof.
  refine (contractAddresses_well_formed 167000 _ _).
  - reflexivity.
  - vm_compute. repeat constructor.
Defined.



End ConfigFacts.
